(** * Verification of the lustre_exporter v2 collection engine

    Shallow embedding of the scrape-coalescing scheduler
    ([sources/runner.go]) and of the v2 collection context and its text
    parsers ([sources/procfs_v2.go], [sources/proc_common.go]). *)

From Stdlib Require Import ZArith List Bool String Ascii QArith Lia.
Import ListNotations.
Open Scope string_scope.

(* ================================================================== *)
(** ** Results of fallible code

    Go code returns [(value, error)]; an out-of-range index panics. *)

Inductive res (A : Type) : Type :=
| Ok (a : A)
| Err (msg : string)
| Panic (msg : string).
Arguments Ok {A} a.
Arguments Err {A} msg.
Arguments Panic {A} msg.

(* ================================================================== *)
(** ** Emitted samples

    [prometheus.Metric] built by a [lustreProcMetric]'s [metricFunc] from
    [(labelNames, labelValues, name, help, value)]. *)

Inductive promKind := Counter | Gauge | Untyped.

Record Metric := mkMetric {
  m_kind   : promKind;
  m_labels : list string;
  m_vals   : list string;
  m_name   : string;
  m_help   : string;
  m_value  : Q
}.

(* ================================================================== *)
(** * The scheduler: [runner], [worker] ([sources/runner.go]) *)

Module Runner.

Local Open Scope Z_scope.

(** Times are [time.Time] in nanoseconds; a [time.Duration] is an int64
    of nanoseconds, and [Time.Sub] saturates at its bounds. *)
Definition minDuration : Z := - 2 ^ 63.
Definition maxDuration : Z := 2 ^ 63 - 1.
Definition time_Sub (t u : Z) : Z := Z.max minDuration (Z.min maxDuration (t - u)).
Definition Before (t u : Z) : bool := t <? u.

(** Default tunables: [MAX_WORKER = 4], [SHELF_LIFE = time.Second]. *)
Definition MAX_WORKER_default : Z := 4.
Definition SHELF_LIFE_default : Z := 1000000000.

(** [runnerCtx]: one source's collection within a pass; [rc_metrics] is
    the [metrics_] slice its [collectorCtx] accumulated. *)
Record runnerCtx := mkRunnerCtx {
  rc_name    : string;
  rc_result  : string;
  rc_cost    : Z;
  rc_metrics : list Metric
}.

(** [worker]: [w_id] stands for the pointer identity used as map key. *)
Record worker := mkWorker {
  w_id    : nat;
  w_list  : list string;
  w_ctxs  : list runnerCtx;
  w_creat : Z;
  w_start : Z;
  w_end   : Z
}.

(** [runner]: [workers] is the content of [map[*worker]*worker], in one
    iteration order; [nextId] supplies fresh pointers; [launched] records
    every worker whose [run] was called (one fan-out of per-source
    goroutines each). *)
Record runner := mkRunner {
  workers     : list worker;
  lastSuccess : option worker;
  nextId      : nat;
  launched    : list nat
}.

Definition insRunner : runner := mkRunner [] None 0 [].

Definition newWorker (lst : list string) (id : nat) (now : Z) : worker :=
  mkWorker id lst [] now 0 0.

(** [worker.run]: sets [start] and launches the fan-out. *)
Definition run (w : worker) (now : Z) (r : runner) : worker * runner :=
  let w' := mkWorker (w_id w) (w_list w) (w_ctxs w) (w_creat w) now (w_end w) in
  (w', mkRunner (workers r) (lastSuccess r) (nextId r) (launched r ++ [w_id w])).

(** The loop over [r.workers] of [getRunnerWorker] at capacity. *)
Fixpoint pickWorker (ret : option worker) (ws : list worker) : option worker :=
  match ws with
  | [] => ret
  | w :: ws' =>
      match ret with
      | None => pickWorker (Some w) ws'
      | Some r =>
          if Before (w_creat r) (w_creat w) then pickWorker (Some w) ws'
          else pickWorker ret ws'
      end
  end.

Definition getRunnerWorker (MAX_WORKER : Z) (lst : list string) (now : Z)
    (r : runner) : option worker * runner :=
  if MAX_WORKER <=? Z.of_nat (List.length (workers r)) then
    (pickWorker None (workers r), r)
  else
    let ret := newWorker lst (nextId r) now in
    let r1 := mkRunner (workers r ++ [ret]) (lastSuccess r) (S (nextId r)) (launched r) in
    let '(ret', r2) := run ret now r1 in
    (Some ret', r2).

(** [doneForWorker]: record as last success and delete from the map
    ([release] runs asynchronously and does not touch [metrics_]). *)
Definition doneForWorker (w : worker) (r : runner) : runner :=
  mkRunner (filter (fun x => negb (Nat.eqb (w_id x) (w_id w))) (workers r))
           (Some w) (nextId r) (launched r).

(** [worker.update]: replays every context's accumulated samples; the
    second component lists the [(source, result)] observations recorded
    on the summary vector. *)
Definition worker_update (w : worker) : list Metric * list (string * string) :=
  (flat_map rc_metrics (w_ctxs w), map (fun c => (rc_name c, rc_result c)) (w_ctxs w)).

Inductive served :=
| Replayed (out : list Metric * list (string * string))
| Attached (w : option worker).

(** [updateV2]; the waiting and replay after [getRunnerWorker] are
    represented by the worker the request attached to. *)
Definition updateV2 (MAX_WORKER SHELF_LIFE : Z) (lst : list string) (now : Z)
    (r : runner) : served * runner :=
  match lastSuccess r with
  | Some ls =>
      if time_Sub now (w_end ls) <=? SHELF_LIFE then (Replayed (worker_update ls), r)
      else let '(w, r') := getRunnerWorker MAX_WORKER lst now r in (Attached w, r')
  | None => let '(w, r') := getRunnerWorker MAX_WORKER lst now r in (Attached w, r')
  end.

(** A sequence of scrape requests at the given times. *)
Fixpoint serve (MAX_WORKER SHELF_LIFE : Z) (lst : list string) (nows : List.list Z)
    (r : runner) : list served * runner :=
  match nows with
  | [] => ([], r)
  | now :: nows' =>
      let '(o, r1) := updateV2 MAX_WORKER SHELF_LIFE lst now r in
      let '(os, r2) := serve MAX_WORKER SHELF_LIFE lst nows' r1 in
      (o :: os, r2)
  end.

(** States reachable from the empty runner through the scheduler's
    operations. *)
Inductive reachable (MAX_WORKER : Z) : runner -> Prop :=
| reach_init : reachable MAX_WORKER insRunner
| reach_get : forall r l now,
    reachable MAX_WORKER r -> reachable MAX_WORKER (snd (getRunnerWorker MAX_WORKER l now r))
| reach_done : forall r w,
    reachable MAX_WORKER r -> reachable MAX_WORKER (doneForWorker w r).

(** States reached from a given one through further scheduler operations. *)
Inductive steps (MAX_WORKER : Z) (r0 : runner) : runner -> Prop :=
| steps_refl : steps MAX_WORKER r0 r0
| steps_get : forall r l now,
    steps MAX_WORKER r0 r -> steps MAX_WORKER r0 (snd (getRunnerWorker MAX_WORKER l now r))
| steps_done : forall r w,
    steps MAX_WORKER r0 r -> steps MAX_WORKER r0 (doneForWorker w r).

(** [main] ([lustre_exporter.go]): the [--collector.v2.workers] flag
    becomes [MAX_WORKER], a value [<= 0] being replaced by 4. *)
Definition mainMaxWorker (workers : Z) : Z := if workers <=? 0 then 4 else workers.

End Runner.

(* ================================================================== *)
(** * Go string and number primitives

    Strings are byte strings ([string] of [ascii]).  Whitespace is
    [unicode.IsSpace] on single bytes: tab, newline, vertical tab, form
    feed, carriage return and space (multi-byte spaces such as U+00A0 are
    not modelled). *)

Module GoStr.

Local Open Scope list_scope.

Definition isSpace (c : ascii) : bool :=
  let n := nat_of_ascii c in ((9 <=? n) && (n <=? 13))%nat || (n =? 32)%nat.

Definition isDigit (c : ascii) : bool :=
  let n := nat_of_ascii c in ((48 <=? n) && (n <=? 57))%nat.

Definition dval (c : ascii) : Z := Z.of_nat (nat_of_ascii c) - 48.

Definition chars (s : string) : list ascii := list_ascii_of_string s.
Definition str (l : list ascii) : string := string_of_list_ascii l.

Fixpoint lprefix (p l : list ascii) : bool :=
  match p, l with
  | [], _ => true
  | a :: p', b :: l' => Ascii.eqb a b && lprefix p' l'
  | _ :: _, [] => false
  end.

Fixpoint dropSpaces (l : list ascii) : list ascii :=
  match l with
  | c :: l' => if isSpace c then dropSpaces l' else l
  | [] => []
  end.

(** [strings.TrimSpace] *)
Definition TrimSpace (s : string) : string :=
  str (rev (dropSpaces (rev (dropSpaces (chars s))))).

Fixpoint fields_aux (l cur : list ascii) : list (list ascii) :=
  match l with
  | [] => match cur with [] => [] | _ => [rev cur] end
  | c :: l' =>
      if isSpace c then
        match cur with
        | [] => fields_aux l' []
        | _ => rev cur :: fields_aux l' []
        end
      else fields_aux l' (c :: cur)
  end.

(** [strings.Fields] *)
Definition Fields (s : string) : list string := map str (fields_aux (chars s) []).

Fixpoint split_aux (fuel : nat) (sep l cur : list ascii) : list (list ascii) :=
  match fuel with
  | O => [rev cur ++ l]
  | S f =>
      match l with
      | [] => [rev cur]
      | c :: l' =>
          if lprefix sep l then rev cur :: split_aux f sep (skipn (List.length sep) l) []
          else split_aux f sep l' (c :: cur)
      end
  end.

(** [strings.Split] for a non-empty separator. *)
Definition Split (s sep : string) : list string :=
  map str (split_aux (S (String.length s)) (chars sep) (chars s) []).

Fixpoint lindex (sub l : list ascii) : option nat :=
  if lprefix sub l then Some O
  else match l with
       | [] => None
       | _ :: l' => option_map S (lindex sub l')
       end.

(** [strings.Index]; [None] stands for [-1]. *)
Definition Index (s sub : string) : option nat := lindex (chars sub) (chars s).

(** [s[a:]] and [s[a:b]]; out-of-range slicing panics. *)
Definition slice_from (s : string) (a : nat) : option string :=
  if (a <=? String.length s)%nat then Some (str (skipn a (chars s))) else None.
Definition slice (s : string) (a b : nat) : option string :=
  if ((a <=? b) && (b <=? String.length s))%nat
  then Some (str (firstn (b - a) (skipn a (chars s)))) else None.

(** [strings.Count] for a one-byte separator. *)
Definition CountChar (s : string) (c : ascii) : nat :=
  List.length (filter (fun x => Ascii.eqb x c) (chars s)).

(** [strings.TrimPrefix], [strings.TrimSuffix]. *)
Definition TrimPrefix (s p : string) : string :=
  if lprefix (chars p) (chars s) then str (skipn (String.length p) (chars s)) else s.
Definition TrimSuffix (s p : string) : string :=
  if lprefix (rev (chars p)) (rev (chars s))
  then str (rev (skipn (String.length p) (rev (chars s)))) else s.

(** [strings.Replace(s, c, "", -1)] for a one-byte [c]. *)
Definition RemoveChar (s : string) (c : ascii) : string :=
  str (filter (fun x => negb (Ascii.eqb x c)) (chars s)).

(** [regexp.MustCompile(` +`).Split(s, -1)]: cut at every maximal run of
    spaces, keeping the (possibly empty) pieces around them. *)
Fixpoint spaceSplit_aux (l cur : list ascii) (inRun : bool) : list (list ascii) :=
  match l with
  | [] => [rev cur]
  | c :: l' =>
      if Ascii.eqb c " "%char then
        if inRun then spaceSplit_aux l' [] true else rev cur :: spaceSplit_aux l' [] true
      else spaceSplit_aux l' (c :: cur) false
  end.
Definition reSpaceSplit (s : string) : list string := map str (spaceSplit_aux (chars s) [] false).

(** [reNum = regexp.MustCompile(`[0-9]*\.[0-9]+|[0-9]+`)]: leftmost-first
    matching, the first alternative preferred at each start position. *)
Fixpoint span_digits (l : list ascii) : list ascii * list ascii :=
  match l with
  | c :: l' => if isDigit c then let '(d, r) := span_digits l' in (c :: d, r) else ([], l)
  | [] => ([], [])
  end.

Definition reNum_at (l : list ascii) : option (list ascii * list ascii) :=
  let '(d1, r1) := span_digits l in
  let alt2 := match d1 with [] => None | _ => Some (d1, r1) end in
  match r1 with
  | c :: r2 =>
      if Ascii.eqb c "."%char then
        let '(d2, r3) := span_digits r2 in
        match d2 with [] => alt2 | _ => Some (d1 ++ c :: d2, r3) end
      else alt2
  | [] => alt2
  end.

Fixpoint reNum_all (fuel : nat) (l : list ascii) : list (list ascii) :=
  match fuel with
  | O => []
  | S f =>
      match l with
      | [] => []
      | _ :: l' =>
          match reNum_at l with
          | Some (m, r) => m :: reNum_all f r
          | None => reNum_all f l'
          end
      end
  end.

(** [reNum.FindAllString(s, -1)] *)
Definition reNumFindAll (s : string) : list string :=
  map str (reNum_all (S (String.length s)) (chars s)).

(** The characters a match of [reNum] can contain. *)
Definition isNumChar (c : ascii) : bool := isDigit c || Ascii.eqb c "."%char.

Fixpoint digits_val (l : list ascii) (acc : Z) : option Z :=
  match l with
  | [] => Some acc
  | c :: l' => if isDigit c then digits_val l' (acc * 10 + dval c)%Z else None
  end.

(** [strconv.ParseInt(s, 10, 64)] *)
Definition ParseInt (s : string) : res Z :=
  let l := chars s in
  let '(neg, body) :=
    match l with
    | c :: b => if Ascii.eqb c "+"%char then (false, b)
                else if Ascii.eqb c "-"%char then (true, b) else (false, l)
    | [] => (false, l)
    end in
  match body with
  | [] => Err "strconv.ParseInt: invalid syntax"
  | _ =>
      match digits_val body 0%Z with
      | None => Err "strconv.ParseInt: invalid syntax"
      | Some v =>
          if neg then (if (v <=? 2 ^ 63)%Z then Ok (- v)%Z else Err "strconv.ParseInt: value out of range")
          else (if (v <=? 2 ^ 63 - 1)%Z then Ok v else Err "strconv.ParseInt: value out of range")
      end
  end.

Fixpoint mantissa (l : list ascii) (acc : Z) (nd : nat) (k : Z) (dot : bool)
    : Z * nat * Z * list ascii :=
  match l with
  | c :: l' =>
      if isDigit c then mantissa l' (acc * 10 + dval c)%Z (S nd) (if dot then k + 1 else k)%Z dot
      else if Ascii.eqb c "."%char && negb dot then mantissa l' acc nd k true
      else (acc, nd, k, l)
  | [] => (acc, nd, k, [])
  end.

Definition sign_of (l : list ascii) : Z * list ascii :=
  match l with
  | c :: b => if Ascii.eqb c "+"%char then (1%Z, b)
              else if Ascii.eqb c "-"%char then ((-1)%Z, b) else (1%Z, l)
  | [] => (1%Z, l)
  end.

Definition exponent (l : list ascii) : option Z :=
  match l with
  | [] => Some 0%Z
  | c :: r =>
      if Ascii.eqb c "e"%char || Ascii.eqb c "E"%char then
        let '(sg, ds) := sign_of r in
        match ds with
        | [] => None
        | _ => option_map (fun e => sg * e)%Z (digits_val ds 0%Z)
        end
      else None
  end.

(** [strconv.ParseFloat(s, 64)] on decimal literals
    [[+-]digits[.digits][(e|E)[+-]digits]], read exactly as a rational.
    Rounding to the nearest double, the range error, and the other
    spellings Go accepts ([inf], [nan], hexadecimal) are not modelled:
    no claim checked here depends on them. *)
Definition ParseFloat (s : string) : res Q :=
  let '(sg, body) := sign_of (chars s) in
  let '(m, nd, k, rest) := mantissa body 0%Z O 0%Z false in
  match nd with
  | O => Err "strconv.ParseFloat: invalid syntax"
  | S _ =>
      match exponent rest with
      | None => Err "strconv.ParseFloat: invalid syntax"
      | Some e =>
          let p := (e - k)%Z in
          if (0 <=? p)%Z then Ok (inject_Z (sg * m * 10 ^ p))
          else Ok (Qmake (sg * m) (Z.to_pos (10 ^ (- p))))
      end
  end.

End GoStr.

(* ================================================================== *)
(** * The v2 collection context ([sources/procfs_v2.go]) *)

Module ProcfsV2.

Import GoStr.
Local Open Scope list_scope.

Definition NL : string := String "010"%char EmptyString.

(** ** Configuration data *)

(** [lustreProcMetric]; [metricFunc] is represented by the kind of
    sample it builds. *)
Record lustreProcMetric := mkLustreProcMetric {
  filename        : string;
  promName        : string;
  source          : string;
  path            : string;
  helpText        : string;
  hasMultipleVals : bool;
  metricFunc      : promKind
}.

Record lustreProcfsSource := mkSource {
  basePath          : string;
  lustreProcMetrics : list lustreProcMetric
}.

(** Modelled from the spec: the metric-type and help-text constants
    ([single], [stats], [readSamplesHelp], ...) are declared in a file of
    the repository that is not under src/.  They are distinct strings;
    only their identity (as switch cases and map keys) is used. *)
Definition single := "single".
Definition stats := "stats".
Definition mdStats := "md_stats".
Definition encryptPagePools := "encrypt_page_pools".
Definition readSamplesHelp := "readSamplesHelp".
Definition readMinimumHelp := "readMinimumHelp".
Definition readMaximumHelp := "readMaximumHelp".
Definition readTotalHelp := "readTotalHelp".
Definition writeSamplesHelp := "writeSamplesHelp".
Definition writeMinimumHelp := "writeMinimumHelp".
Definition writeMaximumHelp := "writeMaximumHelp".
Definition writeTotalHelp := "writeTotalHelp".
Definition physicalPagesHelp := "physicalPagesHelp".
Definition pagesPerPoolHelp := "pagesPerPoolHelp".
Definition maxPagesHelp := "maxPagesHelp".
Definition maxPoolsHelp := "maxPoolsHelp".
Definition totalPagesHelp := "totalPagesHelp".
Definition totalFreeHelp := "totalFreeHelp".
Definition maxPagesReachedHelp := "maxPagesReachedHelp".
Definition growsHelp := "growsHelp".
Definition growsFailureHelp := "growsFailureHelp".
Definition shrinksHelp := "shrinksHelp".
Definition cacheAccessHelp := "cacheAccessHelp".
Definition cacheMissingHelp := "cacheMissingHelp".
Definition lowFreeMarkHelp := "lowFreeMarkHelp".
Definition maxWaitQueueDepthHelp := "maxWaitQueueDepthHelp".
Definition outOfMemHelp := "outOfMemHelp".
Definition pagesPerBlockRWHelp := "pagesPerBlockRWHelp".
Definition discontiguousPagesHelp := "discontiguousPagesHelp".
Definition diskIOsInFlightHelp := "diskIOsInFlightHelp".
Definition ioTimeHelp := "ioTimeHelp".
Definition diskIOSizeHelp := "diskIOSizeHelp".
Definition pagesPerRPCHelp := "pagesPerRPCHelp".
Definition rpcsInFlightHelp := "rpcsInFlightHelp".
Definition offsetHelp := "offsetHelp".

Fixpoint lookup {A} (k : string) (m : list (string * A)) : option A :=
  match m with
  | [] => None
  | (k', v) :: m' => if String.eqb k k' then Some v else lookup k m'
  end.

(** The regular expressions the parsers use:
    - [RLine lit] is ["<lit>.*"] ([.] stops at a newline);
    - [RBlock head] is ["(?ms:^<head>.*?(\n\n|\z))"];
    - [REmpty] is [""], the pattern of a missing [bytesMap] entry. *)
Inductive regex := REmpty | RLine (lit : string) | RBlock (head : string).

Record multistatParsingStruct := mkMPS { pattern : regex; index : nat }.

Definition brwStatsMetricBlocks : list (string * string) := [
  (pagesPerBlockRWHelp, "pages per bulk r/w");
  (discontiguousPagesHelp, "discontiguous pages");
  (diskIOsInFlightHelp, "disk I/Os in flight");
  (ioTimeHelp, "I/O time");
  (diskIOSizeHelp, "disk I/O size");
  (pagesPerRPCHelp, "pages per rpc");
  (rpcsInFlightHelp, "rpcs in flight");
  (offsetHelp, "offset")].

Definition operationSlice : list (string * nat) := [
  ("open", 1%nat); ("close", 1%nat); ("getattr", 1%nat); ("setattr", 1%nat);
  ("getxattr", 1%nat); ("setxattr", 1%nat); ("statfs", 1%nat); ("seek", 1%nat);
  ("readdir", 1%nat); ("truncate", 1%nat); ("alloc_inode", 1%nat);
  ("removexattr", 1%nat); ("unlink", 1%nat); ("inode_permission", 1%nat);
  ("create", 1%nat); ("get_info", 1%nat); ("set_info_async", 1%nat);
  ("connect", 1%nat); ("ping", 1%nat)].

Definition bytesMap : list (string * multistatParsingStruct) := [
  (readSamplesHelp,       mkMPS (RLine "read_bytes ") 1);
  (readMinimumHelp,       mkMPS (RLine "read_bytes ") 4);
  (readMaximumHelp,       mkMPS (RLine "read_bytes ") 5);
  (readTotalHelp,         mkMPS (RLine "read_bytes ") 6);
  (writeSamplesHelp,      mkMPS (RLine "write_bytes ") 1);
  (writeMinimumHelp,      mkMPS (RLine "write_bytes ") 4);
  (writeMaximumHelp,      mkMPS (RLine "write_bytes ") 5);
  (writeTotalHelp,        mkMPS (RLine "write_bytes ") 6);
  (physicalPagesHelp,     mkMPS (RLine "physical pages: ") 2);
  (pagesPerPoolHelp,      mkMPS (RLine "pages per pool: ") 3);
  (maxPagesHelp,          mkMPS (RLine "max pages: ") 2);
  (maxPoolsHelp,          mkMPS (RLine "max pools: ") 2);
  (totalPagesHelp,        mkMPS (RLine "total pages: ") 2);
  (totalFreeHelp,         mkMPS (RLine "total free: ") 2);
  (maxPagesReachedHelp,   mkMPS (RLine "max pages reached: ") 3);
  (growsHelp,             mkMPS (RLine "grows: ") 1);
  (growsFailureHelp,      mkMPS (RLine "grows failure: ") 2);
  (shrinksHelp,           mkMPS (RLine "shrinks: ") 1);
  (cacheAccessHelp,       mkMPS (RLine "cache access: ") 2);
  (cacheMissingHelp,      mkMPS (RLine "cache missing: ") 2);
  (lowFreeMarkHelp,       mkMPS (RLine "low free mark: ") 3);
  (maxWaitQueueDepthHelp, mkMPS (RLine "max waitqueue depth: ") 3);
  (outOfMemHelp,          mkMPS (RLine "out of mem: ") 3)].

(** [jobStatsMultistatParsingStruct]: [pattern] is compared as a plain
    string there. *)
Definition jobStatsMultistatParsingStruct : list (string * (string * nat)) := [
  (readSamplesHelp,  ("read_bytes", 0%nat));
  (readMinimumHelp,  ("read_bytes", 1%nat));
  (readMaximumHelp,  ("read_bytes", 2%nat));
  (readTotalHelp,    ("read_bytes", 3%nat));
  (writeSamplesHelp, ("write_bytes", 0%nat));
  (writeMinimumHelp, ("write_bytes", 1%nat));
  (writeMaximumHelp, ("write_bytes", 2%nat));
  (writeTotalHelp,   ("write_bytes", 3%nat))].

(** ** [regexCaptureString] for the three patterns *)

Definition NLc : ascii := "010"%char.

Fixpoint find_line_start (head l : list ascii) (atStart : bool) : option (list ascii) :=
  match l with
  | [] => if atStart && lprefix head [] then Some [] else None
  | c :: l' =>
      if atStart && lprefix head l then Some l
      else find_line_start head l' (Ascii.eqb c NLc)
  end.

Fixpoint upto_blank (l : list ascii) : list ascii :=
  match l with
  | [] => []
  | a :: l' =>
      if Ascii.eqb a NLc && match l' with b :: _ => Ascii.eqb b NLc | [] => false end
      then [a; NLc]
      else a :: upto_blank l'
  end.

Fixpoint upto_newline (l : list ascii) : list ascii :=
  match l with
  | [] => []
  | a :: l' => if Ascii.eqb a NLc then [] else a :: upto_newline l'
  end.

Definition regexCaptureString (re : regex) (text : string) : string :=
  match re with
  | REmpty => ""
  | RLine lit =>
      match lindex (chars lit) (chars text) with
      | None => ""
      | Some p => str (chars lit ++ upto_newline (skipn (p + List.length (chars lit)) (chars text)))
      end
  | RBlock head =>
      match find_line_start (chars head) (chars text) true with
      | None => ""
      | Some sfx => str (chars head ++ upto_blank (skipn (List.length (chars head)) sfx))
      end
  end.

(** ** [parseFileElements] ([sources/proc_common.go]) *)

Definition parseFileElements (path : string) (directoryDepth : Z) : res (string * string) :=
  let pathElements := Split path "/" in
  let pathLen := Z.of_nat (List.length pathElements) in
  if (pathLen <? 1)%Z then Err "path did not return at least one element"
  else
    match nth_error pathElements (Z.to_nat (pathLen - 1)) with
    | None => Panic "index out of range"
    | Some name =>
        let i := (pathLen - 2 - directoryDepth)%Z in
        match (if (i <? 0)%Z then None else nth_error pathElements (Z.to_nat i)) with
        | None => Panic "index out of range"
        | Some nodeName =>
            let nodeName := TrimPrefix nodeName "filter-" in
            let nodeName := TrimSuffix nodeName "_UUID" in
            Ok (name, nodeName)
        end
    end.


(** ** [jobState] *)

Definition jobStateKeys : list string := [
  "open"; "close"; "mknod"; "link"; "unlink"; "mkdir"; "rmdir"; "rename";
  "getattr"; "setattr"; "getxattr"; "setxattr"; "statfs"; "sync";
  "samedir_rename"; "crossdir_rename"; "punch"; "destroy"; "create";
  "get_info"; "set_info"; "quotactl"].

(** The fixed arrays [[4]int64], [[4]int64] and [[22]int64] are lists of
    those lengths. *)
Record jobState := mkJobState {
  jobid      : string;
  readbytes  : list Z;
  writebytes : list Z;
  vals       : list Z
}.

(** [jobStateInitVal] after [__init]: [unsafe.Sizeof(jobState)] is 256
    bytes, a 16-byte string header followed by [256/8 - 2 = 30] int64
    words ([4 + 4 + 22]), each set to [-1]. *)
Definition jobStateInitVal : jobState :=
  mkJobState "" (repeat (-1)%Z 4) (repeat (-1)%Z 4) (repeat (-1)%Z 22).

Fixpoint set_nth (l : list Z) (i : nat) (v : Z) : list Z :=
  match l, i with
  | [], _ => []
  | _ :: l', O => v :: l'
  | x :: l', S i' => x :: set_nth l' i' v
  end.

Definition set_readbytes (js : jobState) d := mkJobState (jobid js) d (writebytes js) (vals js).
Definition set_writebytes (js : jobState) d := mkJobState (jobid js) (readbytes js) d (vals js).
Definition set_vals (js : jobState) d := mkJobState (jobid js) (readbytes js) (writebytes js) d.
Definition set_jobid (js : jobState) d := mkJobState d (readbytes js) (writebytes js) (vals js).

(** [parsingNums]: writes the first (up to) four numbers of the line into
    [dest]; returns the new array, the count and the error. *)
Fixpoint parsingNums_loop (numStrs : list string) (dest : list Z) (cnt : nat)
    : list Z * nat * option string :=
  match numStrs with
  | [] => (dest, cnt, None)
  | numStr :: rest =>
      match ParseInt (TrimSpace numStr) with
      | Ok num =>
          let dest' := set_nth dest cnt num in
          if Nat.eqb (S cnt) 4 then (dest', S cnt, None)
          else parsingNums_loop rest dest' (S cnt)
      | Err e | Panic e => (dest, cnt, Some e)
      end
  end.

Definition parsingNums (dest : list Z) (input : string) : list Z * nat * option string :=
  parsingNums_loop (reNumFindAll input) dest O.

Definition parsingInt64 (input : string) : res Z :=
  match reNumFindAll input with
  | [] => Err "can not find any num strings"
  | numStr :: _ => ParseInt (TrimSpace numStr)
  end.

(** Modelled from the spec: [getValidUtf8String] is not under src/; the
    job id is the trimmed text after [job_id:], which is unchanged on the
    valid UTF-8 text used here. *)
Definition getValidUtf8String (s : string) : string := s.

Definition getJobID (line : string) : res string :=
  match Index line "job_id:" with
  | None => Err "not found"
  | Some idx =>
      match slice_from line idx with
      | None => Panic "slice bounds out of range"
      | Some tail =>
          match Index tail NL with
          | None =>
              match slice_from line (idx + 7) with
              | None => Panic "slice bounds out of range"
              | Some v => Ok (getValidUtf8String (TrimSpace v))
              end
          | Some idx2 =>
              match slice line (idx + 7) idx2 with
              | None => Panic "slice bounds out of range"
              | Some v => Ok (getValidUtf8String (TrimSpace v))
              end
          end
      end
  end.

(** The cases of the [switch key] in [parsingFromText] with their slot. *)
Definition switchSlots : list (string * nat) := [
  ("open", 0%nat); ("close", 1%nat); ("mknod", 2%nat); ("link", 3%nat);
  ("unlink", 4%nat); ("mkdir", 5%nat); ("rmdir", 6%nat); ("rename", 7%nat);
  ("getattr", 8%nat); ("setattr", 9%nat); ("getxattr", 10%nat);
  ("setxattr", 11%nat); ("statfs", 12%nat); ("sync", 13%nat);
  ("samedir_rename", 14%nat); ("crossdir_rename", 15%nat); ("punch", 16%nat);
  ("destroy", 17%nat); ("create", 18%nat); ("get_info", 19%nat);
  ("set_info", 20%nat); ("quotactl", 21%nat)].

Definition keyError (key jobid line : string) : string :=
  "parsing failed for key '" ++ key ++ "' of jobid '" ++ jobid ++ "', line is: " ++ line.

(** One iteration of the loop over [lines[1:]]. *)
Definition parseLine (jobid : string) (js : jobState) (line : string) : res jobState :=
  match Index line ":" with
  | None | Some O => Ok js
  | Some idx =>
      let key := TrimSpace (str (firstn idx (chars line))) in
      if String.eqb key "read_bytes" then
        let '(d, cnt, e) := parsingNums (readbytes js) line in
        if (cnt <=? 3)%nat then Err (keyError key jobid line)
        else match e with Some _ => Err (keyError key jobid line) | None => Ok (set_readbytes js d) end
      else if String.eqb key "write_bytes" then
        let '(d, cnt, e) := parsingNums (writebytes js) line in
        if (cnt <=? 3)%nat then Err (keyError key jobid line)
        else match e with Some _ => Err (keyError key jobid line) | None => Ok (set_writebytes js d) end
      else
        match lookup key switchSlots with
        | Some j =>
            match parsingInt64 line with
            | Ok v => Ok (set_vals js (set_nth (vals js) j v))
            | Err _ | Panic _ => Err (keyError key jobid line)
            end
        | None => Ok js
        end
  end.

Fixpoint parseLines (jobid : string) (js : jobState) (lines : list string) : res jobState :=
  match lines with
  | [] => Ok js
  | line :: rest =>
      match parseLine jobid js line with
      | Ok js' => parseLines jobid js' rest
      | Err e => Err e
      | Panic p => Panic p
      end
  end.

(** [jobState.parsingFromText]; [__init2] resets to [jobStateInitVal]. *)
Definition parsingFromText (content : string) : res jobState :=
  let js := jobStateInitVal in
  match Split content NL with
  | [] => Err ("invalid content for parsing jobStat: " ++ content)
  | line0 :: rest =>
      match getJobID line0 with
      | Err _ => Err ("can not found jobid in content: " ++ content)
      | Panic p => Panic p
      | Ok jobid => parseLines jobid (set_jobid js jobid) rest
      end
  end.

(** ** The context and its state-and-error monad *)

(** Modelled from the spec: [fileReader] is not under src/.  [readFile]
    returns the content of a path ([fr_files]) or an I/O error; [glob]
    returns the paths a pattern matches ([fr_globs]; an unknown pattern
    matches nothing, [None] is a glob error). *)
Record fileReader := mkFileReader {
  fr_files : list (string * string);
  fr_globs : list (string * option (list string))
}.

(** [procfsV2Ctx]: [c_filesJobStats] is [filesJobStats], [c_metrics] is
    [metrics_]; [c_reads] logs every [readFile] call the context makes and
    [c_warns] the [log.Warnf] lines. *)
Record procfsV2Ctx := mkCtx {
  c_fr            : fileReader;
  c_reads         : list string;
  c_filesJobStats : list (string * list jobState);
  c_metrics       : list Metric;
  c_warns         : list string
}.

Definition newCtx (fr : fileReader) : procfsV2Ctx := mkCtx fr [] [] [] [].

Definition M (A : Type) : Type := procfsV2Ctx -> res A * procfsV2Ctx.

Definition ret {A} (a : A) : M A := fun c => (Ok a, c).

Definition bind {A B} (m : M A) (k : A -> M B) : M B :=
  fun c =>
    match m c with
    | (Ok a, c') => k a c'
    | (Err e, c') => (Err e, c')
    | (Panic p, c') => (Panic p, c')
    end.

Definition lift {A} (r : res A) : M A := fun c => (r, c).

Notation "x <- m ;; k" := (bind m (fun x => k))
  (at level 61, m at next level, right associativity).

Fixpoint forM_ {A} (l : list A) (f : A -> M unit) : M unit :=
  match l with
  | [] => ret tt
  | x :: xs => _ <- f x ;; forM_ xs f
  end.

Definition readFile (p : string) : M string :=
  fun c =>
    let c' := mkCtx (c_fr c) (c_reads c ++ [p]) (c_filesJobStats c) (c_metrics c) (c_warns c) in
    match lookup p (fr_files (c_fr c)) with
    | Some s => (Ok s, c')
    | None => (Err ("open " ++ p ++ ": no such file or directory"), c')
    end.

Definition glob (pattern : string) : M (list string) :=
  fun c =>
    match lookup pattern (fr_globs (c_fr c)) with
    | None => (Ok [], c)
    | Some None => (Err ("syntax error in pattern " ++ pattern), c)
    | Some (Some ps) => (Ok ps, c)
    end.

Definition warn (msg : string) : M unit :=
  fun c => (Ok tt, mkCtx (c_fr c) (c_reads c) (c_filesJobStats c) (c_metrics c) (c_warns c ++ [msg])).

Definition getCache (p : string) : M (option (list jobState)) :=
  fun c => (Ok (lookup p (c_filesJobStats c)), c).

Fixpoint cache_insert (p : string) (v : list jobState) (m : list (string * list jobState))
    : list (string * list jobState) :=
  match m with
  | [] => [(p, v)]
  | (k, w) :: m' => if String.eqb k p then (p, v) :: m' else (k, w) :: cache_insert p v m'
  end.

Definition setCache (p : string) (v : list jobState) : M unit :=
  fun c => (Ok tt, mkCtx (c_fr c) (c_reads c) (cache_insert p v (c_filesJobStats c)) (c_metrics c) (c_warns c)).

(** [appendMetrics] *)
Definition appendMetrics (metric : lustreProcMetric) (basicLables lableVals : list string)
    (val : Q) (extraLable extraLableVal : string) : M unit :=
  fun c =>
    let '(bl, lv) :=
      if String.eqb extraLable "" then (basicLables, lableVals)
      else (basicLables ++ [extraLable], lableVals ++ [extraLableVal]) in
    let m := mkMetric (metricFunc metric) bl lv (promName metric) (helpText metric) val in
    (Ok tt, mkCtx (c_fr c) (c_reads c) (c_filesJobStats c) (c_metrics c ++ [m]) (c_warns c)).

(** [float64] of an int64 counter (exact below 2^53). *)
Definition float64 (v : Z) : Q := inject_Z v.

(** ** job_stats *)

Definition getJobStatsOperationMetrics (jobsStats : list jobState) (nodeType nodeName : string)
    (metric : lustreProcMetric) (basicLables : list string) : M unit :=
  let basicLables := basicLables ++ ["operation"] in
  forM_ jobsStats (fun js =>
    forM_ (seq 0 (List.length jobStateKeys)) (fun j =>
      let v := nth j (vals js) 0%Z in
      if (v <? 0)%Z then ret tt
      else appendMetrics metric basicLables
             [nodeType; nodeName; jobid js; nth j jobStateKeys ""] (float64 v) "" "")).

Definition getJobStatsIOMetrics (jobsStats : list jobState) (nodeType nodeName : string)
    (metric : lustreProcMetric) (basicLables : list string) : M unit :=
  match lookup (helpText metric) jobStatsMultistatParsingStruct with
  | None => ret tt
  | Some (pat, idx) =>
      forM_ jobsStats (fun js =>
        if String.eqb pat "read_bytes" then
          appendMetrics metric basicLables [nodeType; nodeName; jobid js]
            (float64 (nth idx (readbytes js) 0%Z)) "" ""
        else if String.eqb pat "write_bytes" then
          appendMetrics metric basicLables [nodeType; nodeName; jobid js]
            (float64 (nth idx (writebytes js) 0%Z)) "" ""
        else ret tt)
  end.

(** The loop over the job blocks: a block that fails to parse is logged
    and skipped. *)
Fixpoint parseJobs (jobs : list string) (acc : list jobState) : M (list jobState) :=
  match jobs with
  | [] => ret acc
  | job :: jobs' =>
      match parsingFromText job with
      | Ok js => parseJobs jobs' (acc ++ [js])
      | Err e => _ <- warn ("parsing jobstat failed: " ++ e) ;; parseJobs jobs' acc
      | Panic p => lift (Panic p)
      end
  end.

(** [parseJobStatsText]; the pooled slice starts empty ([newJobStates]
    truncates it to length 0). *)
Definition parseJobStatsText (path nodeType nodeName : string) (metric : lustreProcMetric)
    (basicLables : list string) : M unit :=
  cached <- getCache path ;;
  let project (jobsStats : list jobState) : M unit :=
    if hasMultipleVals metric
    then getJobStatsOperationMetrics jobsStats nodeType nodeName metric basicLables
    else getJobStatsIOMetrics jobsStats nodeType nodeName metric basicLables in
  match cached with
  | Some jobsStats => project jobsStats
  | None =>
      jobStatsContent <- readFile path ;;
      let splits := Split jobStatsContent "- " in
      if (List.length splits <=? 1)%nat then ret tt
      else
        jobsStats <- parseJobs (tl splits) [] ;;
        _ <- setCache path jobsStats ;;
        project jobsStats
  end.

Definition parseJobStats (nodeType metricType path : string) (directoryDepth : Z)
    (metric : lustreProcMetric) (basicLables : list string) : M unit :=
  elems <- lift (parseFileElements path directoryDepth) ;;
  parseJobStatsText path nodeType (snd elems) metric basicLables.

(** ** Histogram blocks ([brw_stats], [rpc_stats]) *)

Fixpoint dec_digits (fuel : nat) (n : Z) : list ascii :=
  match fuel with
  | O => []
  | S f =>
      let d := ascii_of_nat (48 + Z.to_nat (n mod 10)) in
      if (n / 10 =? 0)%Z then [d] else dec_digits f (n / 10) ++ [d]
  end.

(** [strconv.FormatInt(n, 10)] *)
Definition FormatInt (n : Z) : string :=
  if (n <? 0)%Z then "-" ++ str (dec_digits 64 (- n)) else str (dec_digits 64 n).

(** Modelled from the spec: [convertToBytes] is not under src/.  A size
    token with a [K], [M] or [G] suffix after an integer becomes the
    decimal byte count ("4K" to "4096", "1M" to "1048576"); any other
    token is left unchanged. *)
Definition convertToBytes (s : string) : string :=
  match rev (chars s) with
  | u :: rnum =>
      let mult :=
        if Ascii.eqb u "K"%char then Some 1024%Z
        else if Ascii.eqb u "M"%char then Some (1024 * 1024)%Z
        else if Ascii.eqb u "G"%char then Some (1024 * 1024 * 1024)%Z else None in
      match mult with
      | None => s
      | Some b =>
          match ParseInt (str (rev rnum)) with
          | Ok n => FormatInt (n * b)
          | _ => s
          end
      end
  | [] => s
  end.

Definition nth_or_panic (l : list string) (i : nat) : res string :=
  match nth_error l i with
  | Some x => Ok x
  | None => Panic "index out of range"
  end.

(** One row of [splitBRWStats]. *)
Definition splitBRWRow (nodeType nodeName : string) (metric : lustreProcMetric)
    (lables : list string) (extraLable extraLableVal line : string) : M unit :=
  if (1 <? String.length line)%nat then
    let fields := Fields line in
    if (6 <=? List.length fields)%nat then
      size <- lift (nth_or_panic fields 0) ;;
      readRPCs <- lift (nth_or_panic fields 1) ;;
      writeRPCs <- lift (nth_or_panic fields 5) ;;
      let size := convertToBytes (RemoveChar size ":"%char) in
      read <- lift (ParseFloat readRPCs) ;;
      write <- lift (ParseFloat writeRPCs) ;;
      _ <- appendMetrics metric lables [nodeType; nodeName; "read"; size] read extraLable extraLableVal ;;
      appendMetrics metric lables [nodeType; nodeName; "write"; size] write extraLable extraLableVal
    else if (1 <=? List.length fields)%nat then
      size <- lift (nth_or_panic fields 0) ;;
      rpcs <- lift (nth_or_panic fields 1) ;;
      let size := convertToBytes (RemoveChar size ":"%char) in
      rpc <- lift (ParseFloat rpcs) ;;
      appendMetrics metric lables [nodeType; nodeName; "read"; size] rpc extraLable extraLableVal
    else ret tt
  else ret tt.

Definition splitBRWStats (nodeType nodeName statBlock : string) (metric : lustreProcMetric)
    (lables : list string) (extraLable extraLableVal : string) : M unit :=
  if (String.length statBlock =? 0)%nat || String.eqb statBlock "" then ret tt
  else forM_ (tl (Split statBlock NL))
         (splitBRWRow nodeType nodeName metric lables extraLable extraLableVal).

Definition parseBRWStats (nodeType metricType path : string) (directoryDepth : Z)
    (metric : lustreProcMetric) (basicLables : list string) : M unit :=
  elems <- lift (parseFileElements path directoryDepth) ;;
  statsFile <- readFile path ;;
  let head := match lookup (helpText metric) brwStatsMetricBlocks with Some h => h | None => "" end in
  let block := regexCaptureString (RBlock head) statsFile in
  extra <- (if hasMultipleVals metric then
              let pathElements := Split path "/" in
              v <- lift (nth_or_panic pathElements (List.length pathElements - 3)) ;;
              ret ("type", v)
            else ret ("", "")) ;;
  splitBRWStats nodeType (snd elems) block metric basicLables (fst extra) (snd extra).

(** ** [stats]-like files *)

Definition getStatsOperationMetrics (statsFile nodeType nodeName : string)
    (metric : lustreProcMetric) (basicLables : list string) : M unit :=
  forM_ operationSlice (fun '(pat, idx) =>
    let opStat := regexCaptureString (RLine (pat ++ " ")) statsFile in
    if (String.length opStat <? 1)%nat then ret tt
    else
      let bytesSplit := reSpaceSplit opStat in
      field <- lift (nth_or_panic bytesSplit idx) ;;
      result <- lift (ParseFloat field) ;;
      appendMetrics metric basicLables [nodeType; nodeName] result "operation" pat).

Definition getStatsIOMetrics (statsFile nodeType nodeName : string)
    (metric : lustreProcMetric) (basicLables : list string) : M unit :=
  let entry := match lookup (helpText metric) bytesMap with
               | Some e => e
               | None => mkMPS REmpty 0
               end in
  let bytesString := regexCaptureString (pattern entry) statsFile in
  if (String.length bytesString <? 1)%nat then ret tt
  else
    let bytesSplit := reSpaceSplit bytesString in
    field <- lift (nth_or_panic bytesSplit (index entry)) ;;
    result <- lift (ParseFloat field) ;;
    appendMetrics metric basicLables [nodeType; nodeName] result "" "".

(** [parseStatsFile]: [statsList] is never filled, so the returned list is
    always empty. *)
Definition parseStatsFile (path nodeType nodeName : string) (metric : lustreProcMetric)
    (basicLables : list string) : M (list (Q * string * string)) :=
  statsFile <- readFile path ;;
  _ <- (if hasMultipleVals metric
        then getStatsOperationMetrics statsFile nodeType nodeName metric basicLables
        else getStatsIOMetrics statsFile nodeType nodeName metric basicLables) ;;
  ret [].

(** [filepath.Clean] on the already clean paths returned by the glob. *)
Definition Clean (p : string) : string := p.

Definition parseFile (nodeType metricType path : string) (directoryDepth : Z)
    (metric : lustreProcMetric) (basicLables : list string) : M unit :=
  elems <- lift (parseFileElements path directoryDepth) ;;
  let nodeName := snd elems in
  if String.eqb metricType single then
    value <- readFile (Clean path) ;;
    convertedValue <- lift (ParseFloat (TrimSpace value)) ;;
    appendMetrics metric basicLables [nodeType; nodeName] convertedValue "" ""
  else if String.eqb metricType stats || String.eqb metricType mdStats
          || String.eqb metricType encryptPagePools then
    metricList <- parseStatsFile path nodeType nodeName metric basicLables ;;
    forM_ metricList (fun '(v, l, lv) =>
      appendMetrics metric basicLables [nodeType; nodeName] v l lv)
  else ret tt.

(** ** [collect] *)

(** [filepath.Join] of non-empty elements (the cleaning is not modelled:
    the glob table is keyed by the joined pattern). *)
Definition Join (elems : list string) : string :=
  match filter (fun e => negb (String.eqb e "")) elems with
  | [] => ""
  | e :: es => fold_left (fun acc x => String.append acc (String.append "/" x)) es e
  end.

Definition collectPath (metric : lustreProcMetric) (directoryDepth : Z) (p : string) : M unit :=
  let fn := filename metric in
  if String.eqb fn "brw_stats" || String.eqb fn "rpc_stats" then
    parseBRWStats (source metric) "stats" p directoryDepth metric
      ["component"; "target"; "operation"; "size"]
  else if String.eqb fn "job_stats" then
    parseJobStats (source metric) "job_stats" p directoryDepth metric
      ["component"; "target"; "jobid"]
  else
    let metricType :=
      if String.eqb fn stats then stats
      else if String.eqb fn mdStats then mdStats
      else if String.eqb fn encryptPagePools then encryptPagePools
      else single in
    parseFile (source metric) metricType p directoryDepth metric ["component"; "target"].

(** [procfsV2Ctx.collect]: the body of the loop over the metrics, and the
    loop; [prepareFiles] only warms the file reader and its result is
    ignored, so it is omitted. *)
Definition collectMetric (s : lustreProcfsSource) (metric : lustreProcMetric) : M unit :=
  let directoryDepth := Z.of_nat (CountChar (filename metric) "/"%char) in
  paths <- glob (Join [basePath s; path metric; filename metric]) ;;
  forM_ paths (collectPath metric directoryDepth).

Definition collect (s : lustreProcfsSource) : M unit :=
  forM_ (lustreProcMetrics s) (collectMetric s).

(** One collection pass of a worker ([worker.run]): every source gets its
    own context and its own goroutine; the outcome of each is recorded
    with the samples its context accumulated. *)
Definition runSources (fr : fileReader) (srcs : list (string * lustreProcfsSource))
    : list (string * res unit * list Metric) :=
  map (fun '(name, s) =>
         let '(r, c) := collect s (newCtx fr) in (name, r, c_metrics c)) srcs.

End ProcfsV2.

(* ================================================================== *)
(** * Derived views used in statements

    Pure descriptions of what the job_stats code paths produce, stated
    over the results of [parsingFromText]; each is related to the
    monadic code by a lemma below. *)

Module JobViews.

Import GoStr ProcfsV2.
Local Open Scope list_scope.

(** The [jobState]s of the blocks that parse, in file order. *)
Definition goodJobs (blocks : list string) : list jobState :=
  flat_map (fun b => match parsingFromText b with Ok js => [js] | _ => [] end) blocks.

(** One warning line per block that fails to parse. *)
Definition badWarnings (blocks : list string) : list string :=
  flat_map (fun b => match parsingFromText b with
                     | Err e => [String.append "parsing jobstat failed: " e]
                     | _ => []
                     end) blocks.

(** The samples of the operation projection: one per job and present
    (non-negative) counter. *)
Definition jobOpSamples (metric : lustreProcMetric) (nodeType nodeName : string)
    (basicLables : list string) (jss : list jobState) : list Metric :=
  flat_map (fun js =>
    flat_map (fun j =>
      let v := nth j (vals js) 0%Z in
      if (v <? 0)%Z then []
      else [mkMetric (metricFunc metric) (basicLables ++ ["operation"])
              [nodeType; nodeName; jobid js; nth j jobStateKeys ""]
              (promName metric) (helpText metric) (float64 v)])
      (seq 0 (List.length jobStateKeys))) jss.

(** The samples of the I/O projection: one per job. *)
Definition jobIOSamples (metric : lustreProcMetric) (nodeType nodeName : string)
    (basicLables : list string) (jss : list jobState) : list Metric :=
  match lookup (helpText metric) jobStatsMultistatParsingStruct with
  | None => []
  | Some (pat, idx) =>
      flat_map (fun js =>
        let mk v := [mkMetric (metricFunc metric) basicLables [nodeType; nodeName; jobid js]
                       (promName metric) (helpText metric) (float64 v)] in
        if String.eqb pat "read_bytes" then mk (nth idx (readbytes js) 0%Z)
        else if String.eqb pat "write_bytes" then mk (nth idx (writebytes js) 0%Z)
        else []) jss
  end.

Definition projSamples (metric : lustreProcMetric) (nodeType nodeName : string)
    (basicLables : list string) (jss : list jobState) : list Metric :=
  if hasMultipleVals metric then jobOpSamples metric nodeType nodeName basicLables jss
  else jobIOSamples metric nodeType nodeName basicLables jss.

Definition addMetrics (c : procfsV2Ctx) (l : list Metric) : procfsV2Ctx :=
  mkCtx (c_fr c) (c_reads c) (c_filesJobStats c) (c_metrics c ++ l) (c_warns c).

Definition addWarns (c : procfsV2Ctx) (l : list string) : procfsV2Ctx :=
  mkCtx (c_fr c) (c_reads c) (c_filesJobStats c) (c_metrics c) (c_warns c ++ l).

(** The metric files [collect] hands to [parseFile] as [single]. *)
Definition scalarMetricFile (fn : string) : bool :=
  negb (String.eqb fn "brw_stats" || String.eqb fn "rpc_stats" || String.eqb fn "job_stats"
        || String.eqb fn stats || String.eqb fn mdStats || String.eqb fn encryptPagePools).

End JobViews.

(* ================================================================== *)
(** * Concrete inputs *)

Module Fixtures.

Import Runner.
Local Open Scope Z_scope.

Definition sample (v : Z) : Metric :=
  mkMetric Counter ["component"; "target"] ["ost"; "OST0000"] "lustre_x" "x" (inject_Z v).

(** A completed pass that ended at t = 5 s with one source. *)
Definition wDone : worker :=
  mkWorker 0 ["ost"] [mkRunnerCtx "ost" "success" 3 [sample 7; sample 8]] 1000 1000 5000000000.

Definition rDone : runner := mkRunner [] (Some wDone) 1 [0%nat].

(** Four in-flight workers created at t = 1, 2, 3, 4, kept in the map in
    an arbitrary order. *)
Definition wAt (id : nat) (t : Z) : worker := mkWorker id ["ost"] [] t t 0.
Definition rFull : runner :=
  mkRunner [wAt 2 3; wAt 0 1; wAt 3 4; wAt 1 2] None 4 [0%nat; 1%nat; 2%nat; 3%nat].

End Fixtures.

(* ================================================================== *)
(** * Concrete collection inputs *)

Module ProcFixtures.

Import GoStr ProcfsV2.

(** The lines of a file, each ended by a newline. *)
Definition lines (ls : list string) : string :=
  fold_right (fun l acc => String.append l (String.append NL acc)) "" ls.

Definition ostGlob (fn : string) : string := "/proc/fs/lustre/obdfilter/*/" ++ fn.
Definition ost0 (fn : string) : string := "/proc/fs/lustre/obdfilter/OST0000/" ++ fn.

(** A metric of the [ost] source read from [obdfilter/*/<fn>]. *)
Definition ostMetric (fn help : string) (multi : bool) : lustreProcMetric :=
  mkLustreProcMetric fn ("lustre_" ++ fn) "ost" "obdfilter/*" help multi Gauge.

Definition ostSource (ms : list lustreProcMetric) : lustreProcfsSource :=
  mkSource "/proc/fs/lustre" ms.

(** A file tree where each listed file is the only match of its glob. *)
Definition ostTree (files : list (string * string)) : fileReader :=
  mkFileReader (map (fun '(fn, body) => (ost0 fn, body)) files)
               (map (fun '(fn, _) => (ostGlob fn, Some [ost0 fn])) files).

(** Two scalar files of one source; the first is not a number. *)
Definition mBad : lustreProcMetric := ostMetric "bad_count" "badHelp" false.
Definition mGood : lustreProcMetric := ostMetric "good_count" "goodHelp" false.
Definition scalarTree : fileReader :=
  ostTree [("bad_count", lines ["abc"]); ("good_count", lines ["5"])].

(** job_stats with one job that has no [read_bytes] line. *)
Definition jobsNoRead : string :=
  lines ["job_stats:";
         "- job_id:          a";
         "  open:            { samples:           3, unit:  reqs }"].
Definition mJobReadSamples : lustreProcMetric :=
  ostMetric "job_stats" readSamplesHelp false.
Definition mJobOps : lustreProcMetric :=
  ostMetric "job_stats" "jobStatsHelp" true.

(** job_stats with three blocks, the second without [job_id:]. *)
Definition jobs3 : string :=
  lines ["job_stats:";
         "- job_id:          a";
         "  open:            { samples:           1, unit:  reqs }";
         "- snapshot_time:   1537070542";
         "  open:            { samples:           2, unit:  reqs }";
         "- job_id:          c";
         "  open:            { samples:           4, unit:  reqs }"].

(** job_stats of a target with no active job. *)
Definition jobsIdle : string := lines ["job_stats:"].

(** brw_stats blocks: a row with a single field, and one with two. *)
Definition mBRW : lustreProcMetric := ostMetric "brw_stats" pagesPerBlockRWHelp false.
Definition brwOneField : string :=
  lines ["snapshot_time:         1537070542.123456 (secs.usecs)";
         "";
         "                           read      |     write";
         "pages per bulk r/w     rpcs  % cum % |  rpcs        % cum %";
         "1:";
         ""].
Definition brwTwoFields : string :=
  lines ["pages per bulk r/w     rpcs  % cum % |  rpcs        % cum %";
         "1:                      5";
         ""].

(** The write-size metrics of a [stats] file. *)
Definition writeMetrics : list lustreProcMetric :=
  [ostMetric "stats" writeSamplesHelp false; ostMetric "stats" writeMinimumHelp false;
   ostMetric "stats" writeMaximumHelp false; ostMetric "stats" writeTotalHelp false].
Definition statsBrace : string :=
  lines ["snapshot_time             1537070542.123456 secs.usecs";
         "write_bytes: { samples: 10, unit: bytes, min: 1, max: 5, sum: 20 }"].
Definition statsLustre : string :=
  lines ["snapshot_time             1537070542.123456 secs.usecs";
         "write_bytes               10 samples [bytes] 1 5 20"].

End ProcFixtures.

(* ================================================================== *)
(** * Scheduler properties *)

Module RunnerFacts.

Import Runner Fixtures.
Local Open Scope Z_scope.

Lemma updateV2_fresh (MAX SHELF : Z) lst now r w :
  lastSuccess r = Some w -> time_Sub now (w_end w) <= SHELF ->
  updateV2 MAX SHELF lst now r = (Replayed (worker_update w), r).
Proof.
  intros Hl Ht. unfold updateV2. rewrite Hl.
  apply Z.leb_le in Ht. rewrite Ht. reflexivity.
Qed.

(** C1: requests arriving within [SHELF_LIFE] of the end of the last
    completed pass all replay that pass's samples, and the scheduler state
    (in-flight set, last success, launched fan-outs) is left unchanged:
    no new worker is created or started. *)
Theorem serve_within_shelf_life_replays (MAX SHELF : Z) (lst : list string) (nows : list Z)
    (r : runner) (w : worker) :
  lastSuccess r = Some w ->
  Forall (fun now => time_Sub now (w_end w) <= SHELF) nows ->
  serve MAX SHELF lst nows r = (repeat (Replayed (worker_update w)) (List.length nows), r).
Proof.
  intros Hl Hall. induction Hall as [|now nows' Hnow _ IH]; [reflexivity|].
  simpl. rewrite (updateV2_fresh MAX SHELF lst now r w Hl Hnow), IH. reflexivity.
Qed.

Lemma serve_within_shelf_life_replays_witness :
  Forall (fun now => time_Sub now (w_end wDone) <= SHELF_LIFE_default)
         [5000000000; 5500000000; 6000000000] /\
  serve MAX_WORKER_default SHELF_LIFE_default ["ost"] [5000000000; 5500000000; 6000000000] rDone
  = (repeat (Replayed (worker_update wDone)) 3, rDone).
Proof.
  assert (H : Forall (fun now => time_Sub now (w_end wDone) <= SHELF_LIFE_default)
                     [5000000000; 5500000000; 6000000000])
    by (repeat constructor; vm_compute; discriminate).
  split; [exact H|].
  exact (serve_within_shelf_life_replays MAX_WORKER_default SHELF_LIFE_default ["ost"]
           [5000000000; 5500000000; 6000000000] rDone wDone eq_refl H).
Defined.

(** The selection loop keeps the worker with the latest creation time. *)
Lemma pickWorker_latest ws : forall r0 w,
  pickWorker (Some r0) ws = Some w ->
  (w = r0 \/ In w ws) /\ w_creat r0 <= w_creat w /\
  forall x, In x ws -> w_creat x <= w_creat w.
Proof.
  induction ws as [|x ws IH]; intros r0 w H; simpl in H.
  - inversion H; subst. split; [left; reflexivity|]. split; [lia|]. intros x [].
  - unfold Before in H. destruct (w_creat r0 <? w_creat x) eqn:E.
    + apply Z.ltb_lt in E. destruct (IH x w H) as [Hin [Hle Hall]].
      split; [right; destruct Hin as [->|]; [left|right]; auto|].
      split; [lia|]. intros y [->|Hy]; [lia|auto].
    + apply Z.ltb_ge in E. destruct (IH r0 w H) as [Hin [Hle Hall]].
      split; [destruct Hin as [->|]; [left|right; right]; auto|].
      split; [lia|]. intros y [->|Hy]; [lia|auto].
Qed.

(** C2 (counterexample): with four workers in flight, created at t = 1, 2,
    3 and 4, the request is attached to the one created at t = 4, not to
    the oldest one (created at t = 1). *)
Lemma getRunnerWorker_not_oldest :
  getRunnerWorker MAX_WORKER_default ["ost"] 10 rFull = (Some (wAt 3 4), rFull) /\
  In (wAt 0 1) (workers rFull) /\ w_creat (wAt 0 1) < w_creat (wAt 3 4).
Proof.
  split; [reflexivity|]. split; [simpl; auto|]. simpl. lia.
Qed.

(** C2 (amended): at capacity, [getRunnerWorker] starts no worker (the
    runner is unchanged) and returns an in-flight worker whose creation
    time is the latest of the in-flight set. *)
Theorem getRunnerWorker_at_capacity_latest (MAX : Z) (lst : list string) (now : Z) (r : runner) :
  0 < MAX -> MAX <= Z.of_nat (List.length (workers r)) ->
  exists w, getRunnerWorker MAX lst now r = (Some w, r) /\ In w (workers r) /\
            forall x, In x (workers r) -> w_creat x <= w_creat w.
Proof.
  intros Hpos Hcap. unfold getRunnerWorker.
  apply Z.leb_le in Hcap. rewrite Hcap.
  destruct (workers r) as [|w0 ws] eqn:Ew.
  - simpl in Hcap. apply Z.leb_le in Hcap. simpl in Hcap. lia.
  - simpl. destruct (pickWorker (Some w0) ws) as [w|] eqn:Ep.
    + exists w. destruct (pickWorker_latest ws w0 w Ep) as [Hin [Hle Hall]].
      split; [reflexivity|]. split.
      * destruct Hin as [->|]; [left|right]; auto.
      * intros x [<-|Hx]; auto.
    + exfalso. clear -Ep. revert w0 Ep. induction ws as [|x ws IH]; intros w0 Ep;
        simpl in Ep; [discriminate|].
      destruct (Before (w_creat w0) (w_creat x)); eapply IH; eauto.
Qed.

Lemma getRunnerWorker_at_capacity_latest_witness :
  0 < MAX_WORKER_default /\ MAX_WORKER_default <= Z.of_nat (List.length (workers rFull)) /\
  exists w, getRunnerWorker MAX_WORKER_default ["ost"] 10 rFull = (Some w, rFull) /\
            In w (workers rFull) /\ forall x, In x (workers rFull) -> w_creat x <= w_creat w.
Proof.
  assert (H1 : 0 < MAX_WORKER_default) by (vm_compute; reflexivity).
  assert (H2 : MAX_WORKER_default <= Z.of_nat (List.length (workers rFull)))
    by (vm_compute; discriminate).
  split; [exact H1|]. split; [exact H2|].
  exact (getRunnerWorker_at_capacity_latest MAX_WORKER_default ["ost"] 10 rFull H1 H2).
Defined.

Lemma getRunnerWorker_grows_below_max MAX lst now r :
  (List.length (workers r) < List.length (workers (snd (getRunnerWorker MAX lst now r))))%nat ->
  Z.of_nat (List.length (workers r)) < MAX /\
  List.length (workers (snd (getRunnerWorker MAX lst now r))) = S (List.length (workers r)).
Proof.
  unfold getRunnerWorker. destruct (MAX <=? Z.of_nat (List.length (workers r))) eqn:E.
  - simpl. lia.
  - apply Z.leb_gt in E. simpl. rewrite length_app. simpl. lia.
Qed.

Lemma doneForWorker_shrinks w r :
  (List.length (workers (doneForWorker w r)) <= List.length (workers r))%nat.
Proof. simpl. apply filter_length_le. Qed.

(** C3: from the empty runner, every sequence of [getRunnerWorker] and
    [doneForWorker] keeps at most [MAX_WORKER] workers in flight;
    [getRunnerWorker] grows the set (by one) only when it holds strictly
    fewer than [MAX_WORKER] workers, and [doneForWorker] never grows it. *)
Theorem in_flight_bounded (MAX : Z) :
  0 <= MAX ->
  (forall r, reachable MAX r -> Z.of_nat (List.length (workers r)) <= MAX) /\
  (forall lst now r,
     (List.length (workers r) < List.length (workers (snd (getRunnerWorker MAX lst now r))))%nat ->
     Z.of_nat (List.length (workers r)) < MAX /\
     List.length (workers (snd (getRunnerWorker MAX lst now r))) = S (List.length (workers r))) /\
  (forall w r, (List.length (workers (doneForWorker w r)) <= List.length (workers r))%nat).
Proof.
  intros Hmax. split; [|split; [apply getRunnerWorker_grows_below_max|apply doneForWorker_shrinks]].
  intros r Hr. induction Hr as [|r lst now Hr IH|r w Hr IH].
  - simpl. exact Hmax.
  - unfold getRunnerWorker. destruct (MAX <=? Z.of_nat (List.length (workers r))) eqn:E.
    + exact IH.
    + apply Z.leb_gt in E. simpl. rewrite length_app. simpl. lia.
  - pose proof (doneForWorker_shrinks w r). lia.
Qed.

Lemma in_flight_bounded_witness :
  0 <= MAX_WORKER_default /\
  Z.of_nat (List.length (workers (snd (getRunnerWorker MAX_WORKER_default ["ost"] 1 insRunner))))
    <= MAX_WORKER_default.
Proof.
  assert (H : 0 <= MAX_WORKER_default) by (vm_compute; discriminate).
  split; [exact H|].
  apply (proj1 (in_flight_bounded MAX_WORKER_default H)).
  apply reach_get. apply reach_init.
Defined.

End RunnerFacts.

(* ================================================================== *)
(** * [parseFileElements] *)

Module PathFacts.

Import GoStr ProcfsV2.
Local Open Scope Z_scope.

Lemma split_aux_not_nil fuel sep l cur : split_aux fuel sep l cur <> [].
Proof.
  revert l cur. induction fuel as [|f IH]; intros l cur; simpl; [discriminate|].
  destruct l as [|c l']; [discriminate|].
  destruct (lprefix sep (c :: l')); [discriminate|apply IH].
Qed.

Lemma Split_length s sep : (1 <= List.length (Split s sep))%nat.
Proof.
  unfold Split. rewrite length_map.
  destruct (split_aux _ _ _ _) eqn:E; [exfalso; eapply split_aux_not_nil; eauto|simpl; lia].
Qed.

(** The index [pathLen - 2 - directoryDepth] decides between a result and
    a panic. *)
Lemma parseFileElements_cases (path : string) (d : Z) :
  let n := Z.of_nat (List.length (Split path "/")) in
  (0 <= n - 2 - d < n -> exists name nodeName, parseFileElements path d = Ok (name, nodeName)) /\
  (~ (0 <= n - 2 - d < n) -> exists p, parseFileElements path d = Panic p).
Proof.
  intros n. subst n. pose proof (Split_length path "/") as Hl.
  unfold parseFileElements.
  remember (Split path "/") as el eqn:Eel. clear Eel.
  assert (E1 : (Z.of_nat (List.length el) <? 1) = false) by (apply Z.ltb_ge; lia).
  rewrite E1.
  destruct (nth_error el (Z.to_nat (Z.of_nat (List.length el) - 1))) as [name|] eqn:E2.
  2:{ apply nth_error_None in E2. lia. }
  split.
  - intros Hi.
    assert (E3 : (Z.of_nat (List.length el) - 2 - d <? 0) = false) by (apply Z.ltb_ge; lia).
    rewrite E3.
    destruct (nth_error el (Z.to_nat (Z.of_nat (List.length el) - 2 - d))) as [nn|] eqn:E4.
    + eexists; eexists; reflexivity.
    + apply nth_error_None in E4. lia.
  - intros Hi.
    destruct (Z.of_nat (List.length el) - 2 - d <? 0) eqn:E3; [eexists; reflexivity|].
    apply Z.ltb_ge in E3.
    destruct (nth_error el (Z.to_nat (Z.of_nat (List.length el) - 2 - d))) as [nn|] eqn:E4.
    + exfalso. apply Hi. split; [lia|].
      assert (Hs : nth_error el (Z.to_nat (Z.of_nat (List.length el) - 2 - d)) <> None)
        by (rewrite E4; discriminate).
      apply nth_error_Some in Hs. lia.
    + eexists; reflexivity.
Qed.

(** C10: [strings.Split] always yields at least one element, so
    [parseFileElements] never returns its error; it returns a result
    exactly when the path has enough elements for the node-name index
    (for the non-negative depths its callers pass, when it has at least
    [directoryDepth + 2] elements), and with fewer elements the index is
    out of range and the function panics. *)
Theorem parseFileElements_never_errs (path : string) (d : Z) :
  let n := Z.of_nat (List.length (Split path "/")) in
  1 <= n /\
  (forall e, parseFileElements path d <> Err e) /\
  (n < d + 2 -> exists p, parseFileElements path d = Panic p) /\
  (0 <= d -> d + 2 <= n -> exists name nodeName, parseFileElements path d = Ok (name, nodeName)) /\
  (forall x, parseFileElements path d = Ok x -> d + 2 <= n).
Proof.
  intros n. pose proof (Split_length path "/") as Hl.
  destruct (parseFileElements_cases path d) as [Hok Hpanic]. fold n in Hok, Hpanic.
  split; [lia|]. split; [|split; [|split]].
  - intros e He.
    destruct (Z_le_dec 0 (n - 2 - d)); destruct (Z_lt_dec (n - 2 - d) n).
    + destruct Hok as [a [b Hab]]; [lia|]. congruence.
    + destruct Hpanic as [p Hp]; [lia|]. congruence.
    + destruct Hpanic as [p Hp]; [lia|]. congruence.
    + destruct Hpanic as [p Hp]; [lia|]. congruence.
  - intros Hlt. apply Hpanic. lia.
  - intros Hd Hle. apply Hok. lia.
  - intros x Hx. destruct (Z_le_dec 0 (n - 2 - d)); [lia|].
    destruct Hpanic as [p Hp]; [lia|]. congruence.
Qed.

Lemma parseFileElements_never_errs_witness :
  parseFileElements "/proc/fs/lustre/obdfilter/lustrefs-OST0000/job_stats" 0
    = Ok ("job_stats", "lustrefs-OST0000") /\
  (exists p, parseFileElements "job_stats" 0 = Panic p).
Proof.
  split; [vm_compute; reflexivity|].
  apply (proj1 (proj2 (proj2 (parseFileElements_never_errs "job_stats" 0)))).
  vm_compute. reflexivity.
Defined.

End PathFacts.

(* ================================================================== *)
(** * job_stats parsing *)

Module JobFacts.

Import GoStr ProcfsV2 JobViews.

(** ** Strings *)

Lemma chars_str l : chars (str l) = l.
Proof. apply list_ascii_of_string_of_list_ascii. Qed.

Lemma length_chars s : List.length (chars s) = String.length s.
Proof. induction s as [|a s IH]; simpl; auto. Qed.

Lemma lprefix_length sub l : lprefix sub l = true -> (List.length sub <= List.length l)%nat.
Proof.
  revert l. induction sub as [|a sub IH]; intros [|b l] H; simpl in *; try lia; try discriminate.
  apply andb_prop in H. destruct H as [_ H]. apply IH in H. lia.
Qed.

Lemma lindex_bound sub l i : lindex sub l = Some i -> (i + List.length sub <= List.length l)%nat.
Proof.
  revert i. induction l as [|a l IH]; intros i H; simpl in H.
  - destruct (lprefix sub []) eqn:E; inversion H; subst. apply lprefix_length in E. simpl in *. lia.
  - destruct (lprefix sub (a :: l)) eqn:E.
    + inversion H; subst. apply lprefix_length in E. simpl in *. lia.
    + destruct (lindex sub l) as [j|] eqn:Ej; simpl in H; inversion H; subst.
      specialize (IH j eq_refl). simpl. lia.
Qed.

Lemma lindex_single_notin c l : ~ In c l -> lindex [c] l = None.
Proof.
  induction l as [|a l IH]; intros Hn; simpl; [reflexivity|].
  destruct (Ascii.eqb c a) eqn:E.
  - apply Ascii.eqb_eq in E. subst. exfalso. apply Hn. left. reflexivity.
  - simpl. rewrite IH; [reflexivity|]. intros H. apply Hn. right. exact H.
Qed.

Lemma split_aux_single_notin c : forall fuel l cur,
  (List.length l < fuel)%nat -> ~ In c cur ->
  Forall (fun x => ~ In c x) (split_aux fuel [c] l cur).
Proof.
  induction fuel as [|f IH]; intros l cur Hf Hc; [lia|].
  simpl. destruct l as [|a l'].
  - constructor; [rewrite <- in_rev; exact Hc|constructor].
  - simpl. destruct (Ascii.eqb c a) eqn:E; simpl.
    + constructor; [rewrite <- in_rev; exact Hc|].
      apply IH; [simpl in Hf; lia|intros []].
    + apply IH; [simpl in Hf; lia|].
      intros [H|H]; [subst; rewrite Ascii.eqb_refl in E; discriminate|contradiction].
Qed.

Lemma Split_NL_lines s : Forall (fun line => ~ In NLc (chars line)) (Split s NL).
Proof.
  unfold Split. apply Forall_map.
  eapply Forall_impl; [|apply (split_aux_single_notin NLc (S (String.length s)) (chars s) [])].
  - intros x Hx. rewrite chars_str. exact Hx.
  - rewrite length_chars. lia.
  - intros [].
Qed.

Lemma skipn_notin {A} (c : A) n l : ~ In c l -> ~ In c (skipn n l).
Proof. intros H Hs. apply H. rewrite <- (firstn_skipn n l). apply in_or_app. right. exact Hs. Qed.

(** ** No block parse panics *)

Lemma getJobID_no_panic line p : ~ In NLc (chars line) -> getJobID line <> Panic p.
Proof.
  intros Hn. unfold getJobID.
  destruct (Index line "job_id:") as [idx|] eqn:Ei; [|discriminate].
  unfold Index in Ei. apply lindex_bound in Ei. simpl in Ei.
  rewrite length_chars in Ei.
  unfold slice_from at 1.
  assert (E1 : (idx <=? String.length line)%nat = true) by (apply Nat.leb_le; lia).
  rewrite E1. unfold Index. rewrite chars_str.
  replace (chars NL) with [NLc] by reflexivity.
  rewrite lindex_single_notin by (apply skipn_notin; exact Hn).
  unfold slice_from.
  assert (E2 : (idx + 7 <=? String.length line)%nat = true) by (apply Nat.leb_le; lia).
  rewrite E2. discriminate.
Qed.

Ltac destruct_all_matches :=
  repeat match goal with
         | |- context [match ?x with _ => _ end] => destruct x
         end.

Lemma parseLine_no_panic jobid js line p : parseLine jobid js line <> Panic p.
Proof. unfold parseLine. destruct_all_matches; discriminate. Qed.

Lemma parseLines_no_panic jobid lines : forall js p, parseLines jobid js lines <> Panic p.
Proof.
  induction lines as [|l ls IH]; intros js p; simpl; [discriminate|].
  destruct (parseLine jobid js l) eqn:E; [apply IH|discriminate|].
  exfalso. eapply parseLine_no_panic; eauto.
Qed.

Lemma parsingFromText_no_panic content p : parsingFromText content <> Panic p.
Proof.
  unfold parsingFromText. pose proof (Split_NL_lines content) as Hl.
  destruct (Split content NL) as [|line0 rest]; [discriminate|].
  inversion Hl as [|? ? Hl0 _]; subst.
  destruct (getJobID line0) eqn:E; [apply parseLines_no_panic|discriminate|].
  exfalso. eapply getJobID_no_panic; eauto.
Qed.

(** ** The projections append their pure counterparts *)

Local Open Scope list_scope.

Lemma addMetrics_nil c : addMetrics c [] = c.
Proof. destruct c. unfold addMetrics. simpl. rewrite app_nil_r. reflexivity. Qed.

Lemma addMetrics_app c a b : addMetrics (addMetrics c a) b = addMetrics c (a ++ b).
Proof. unfold addMetrics. simpl. rewrite app_assoc. reflexivity. Qed.

Lemma addWarns_nil c : addWarns c [] = c.
Proof. destruct c. unfold addWarns. simpl. rewrite app_nil_r. reflexivity. Qed.

Lemma addWarns_app c a b : addWarns (addWarns c a) b = addWarns c (a ++ b).
Proof. unfold addWarns. simpl. rewrite app_assoc. reflexivity. Qed.

Lemma appendMetrics_plain metric bl lv v c :
  appendMetrics metric bl lv v "" "" c =
  (Ok tt, addMetrics c [mkMetric (metricFunc metric) bl lv (promName metric) (helpText metric) v]).
Proof. reflexivity. Qed.

Lemma forM_addMetrics {A} (f : A -> M unit) (g : A -> list Metric) :
  (forall x c, f x c = (Ok tt, addMetrics c (g x))) ->
  forall l c, forM_ l f c = (Ok tt, addMetrics c (flat_map g l)).
Proof.
  intros Hf l. induction l as [|x l IH]; intros c; simpl.
  - rewrite addMetrics_nil. reflexivity.
  - unfold bind. rewrite Hf, IH, addMetrics_app. reflexivity.
Qed.

Lemma getJobStatsOperationMetrics_spec jss nodeType nodeName metric bl c :
  getJobStatsOperationMetrics jss nodeType nodeName metric bl c =
  (Ok tt, addMetrics c (jobOpSamples metric nodeType nodeName bl jss)).
Proof.
  unfold getJobStatsOperationMetrics, jobOpSamples.
  apply forM_addMetrics. intros js c'.
  apply forM_addMetrics. intros j c''.
  destruct (nth j (vals js) 0%Z <? 0)%Z.
  - rewrite addMetrics_nil. reflexivity.
  - apply appendMetrics_plain.
Qed.

Lemma getJobStatsIOMetrics_spec jss nodeType nodeName metric bl c :
  getJobStatsIOMetrics jss nodeType nodeName metric bl c =
  (Ok tt, addMetrics c (jobIOSamples metric nodeType nodeName bl jss)).
Proof.
  unfold getJobStatsIOMetrics, jobIOSamples.
  destruct (lookup (helpText metric) jobStatsMultistatParsingStruct) as [[pat idx]|].
  - apply forM_addMetrics. intros js c'.
    destruct (String.eqb pat "read_bytes"); [apply appendMetrics_plain|].
    destruct (String.eqb pat "write_bytes"); [apply appendMetrics_plain|].
    rewrite addMetrics_nil. reflexivity.
  - rewrite addMetrics_nil. reflexivity.
Qed.

Lemma project_spec jss nodeType nodeName metric bl c :
  (if hasMultipleVals metric
   then getJobStatsOperationMetrics jss nodeType nodeName metric bl
   else getJobStatsIOMetrics jss nodeType nodeName metric bl) c =
  (Ok tt, addMetrics c (projSamples metric nodeType nodeName bl jss)).
Proof.
  unfold projSamples. destruct (hasMultipleVals metric);
    [apply getJobStatsOperationMetrics_spec|apply getJobStatsIOMetrics_spec].
Qed.

(** ** The block loop *)

Lemma parseJobs_spec jobs : forall acc c,
  parseJobs jobs acc c = (Ok (acc ++ goodJobs jobs), addWarns c (badWarnings jobs)).
Proof.
  induction jobs as [|job jobs IH]; intros acc c; simpl.
  - rewrite app_nil_r, addWarns_nil. reflexivity.
  - unfold goodJobs, badWarnings. simpl. fold (goodJobs jobs) (badWarnings jobs).
    destruct (parsingFromText job) as [js|e|p] eqn:E.
    + rewrite IH. simpl. rewrite <- app_assoc. reflexivity.
    + unfold bind, warn. rewrite IH. unfold addWarns. simpl.
      rewrite <- app_assoc. reflexivity.
    + exfalso. eapply parsingFromText_no_panic; eauto.
Qed.

(** A job_stats path read for the first time in a pass: the blocks that
    parse are cached and projected, the others logged. *)
Lemma parseJobStatsText_fresh (path nodeType nodeName : string)
    (metric : lustreProcMetric) (bl : list string) (c : procfsV2Ctx) (content : string) :
  lookup path (c_filesJobStats c) = None ->
  lookup path (fr_files (c_fr c)) = Some content ->
  (1 < List.length (Split content "- "))%nat ->
  parseJobStatsText path nodeType nodeName metric bl c =
  (Ok tt,
   mkCtx (c_fr c) (c_reads c ++ [path])
         (cache_insert path (goodJobs (tl (Split content "- "))) (c_filesJobStats c))
         (c_metrics c ++ projSamples metric nodeType nodeName bl (goodJobs (tl (Split content "- "))))
         (c_warns c ++ badWarnings (tl (Split content "- ")))).
Proof.
  intros Hc Hf Hs.
  unfold parseJobStatsText, bind at 1, getCache. rewrite Hc.
  unfold bind at 1, readFile. rewrite Hf.
  cbv beta iota zeta.
  assert (E : Nat.leb (List.length (Split content "- ")) 1 = false) by (apply Nat.leb_gt; exact Hs).
  rewrite E. unfold bind at 1. rewrite parseJobs_spec.
  unfold bind at 1, setCache. rewrite project_spec. simpl. reflexivity.
Qed.

(** A path already in the cache is neither read nor parsed again: only the
    projection of the cached [jobState]s runs. *)
Lemma parseJobStatsText_cached path nodeType nodeName metric bl c jss :
  lookup path (c_filesJobStats c) = Some jss ->
  parseJobStatsText path nodeType nodeName metric bl c =
  (Ok tt, addMetrics c (projSamples metric nodeType nodeName bl jss)).
Proof.
  intros Hc. unfold parseJobStatsText, bind at 1, getCache. rewrite Hc.
  cbv beta iota zeta. apply project_spec.
Qed.

End JobFacts.


(* ================================================================== *)
(** * The job_stats cache and projections *)

Module JobCacheFacts.

Import GoStr ProcfsV2 JobViews ProcFixtures JobFacts.
Local Open Scope list_scope.

Lemma lookup_cache_insert p v m : lookup p (cache_insert p v m) = Some v.
Proof.
  induction m as [|[k w] m IH]; simpl.
  - rewrite String.eqb_refl. reflexivity.
  - destruct (String.eqb k p) eqn:E; simpl.
    + rewrite String.eqb_refl. reflexivity.
    + rewrite String.eqb_sym, E. exact IH.
Qed.

Lemma parseJobStatsText_no_block path nodeType nodeName metric bl c content :
  lookup path (c_filesJobStats c) = None ->
  lookup path (fr_files (c_fr c)) = Some content ->
  (List.length (Split content "- ") <= 1)%nat ->
  parseJobStatsText path nodeType nodeName metric bl c =
  (Ok tt, mkCtx (c_fr c) (c_reads c ++ [path]) (c_filesJobStats c) (c_metrics c) (c_warns c)).
Proof.
  intros Hc Hf Hs.
  unfold parseJobStatsText, bind at 1, getCache. rewrite Hc.
  unfold bind at 1, readFile. rewrite Hf.
  cbv beta iota zeta.
  assert (E : Nat.leb (List.length (Split content "- ")) 1 = true) by (apply Nat.leb_le; exact Hs).
  rewrite E. reflexivity.
Qed.

(** C6: when a job_stats file is parsed from text (its path is not cached
    yet, its read succeeds and it splits into job blocks), the parse
    succeeds, caches exactly the [jobState]s of the blocks that parse (in
    file order), logs one warning per block that fails to parse (a first
    line without [job_id:] or a malformed counter line), and emits the
    projection samples of the cached [jobState]s only. *)
Theorem parseJobStatsText_skips_bad_blocks (path nodeType nodeName : string)
    (metric : lustreProcMetric) (bl : list string) (c : procfsV2Ctx) (content : string) :
  lookup path (c_filesJobStats c) = None ->
  lookup path (fr_files (c_fr c)) = Some content ->
  (1 < List.length (Split content "- "))%nat ->
  parseJobStatsText path nodeType nodeName metric bl c =
  (Ok tt,
   mkCtx (c_fr c) (c_reads c ++ [path])
         (cache_insert path (goodJobs (tl (Split content "- "))) (c_filesJobStats c))
         (c_metrics c ++ projSamples metric nodeType nodeName bl (goodJobs (tl (Split content "- "))))
         (c_warns c ++ badWarnings (tl (Split content "- ")))).
Proof. apply parseJobStatsText_fresh. Qed.

Lemma parseJobStatsText_skips_bad_blocks_witness :
  map jobid (goodJobs (tl (Split jobs3 "- "))) = ["a"; "c"] /\
  List.length (badWarnings (tl (Split jobs3 "- "))) = 1%nat /\
  parseJobStatsText (ost0 "job_stats") "ost" "OST0000" mJobOps ["component"; "target"; "jobid"]
    (newCtx (ostTree [("job_stats", jobs3)])) =
  (Ok tt,
   mkCtx (c_fr (newCtx (ostTree [("job_stats", jobs3)])))
         (c_reads (newCtx (ostTree [("job_stats", jobs3)])) ++ [ost0 "job_stats"])
         (cache_insert (ost0 "job_stats") (goodJobs (tl (Split jobs3 "- ")))
            (c_filesJobStats (newCtx (ostTree [("job_stats", jobs3)]))))
         (c_metrics (newCtx (ostTree [("job_stats", jobs3)])) ++
            projSamples mJobOps "ost" "OST0000" ["component"; "target"; "jobid"]
              (goodJobs (tl (Split jobs3 "- "))))
         (c_warns (newCtx (ostTree [("job_stats", jobs3)])) ++ badWarnings (tl (Split jobs3 "- ")))).
Proof.
  split; [vm_compute; reflexivity|].
  split; [vm_compute; reflexivity|].
  apply (parseJobStatsText_skips_bad_blocks (ost0 "job_stats") "ost" "OST0000" mJobOps
           ["component"; "target"; "jobid"] (newCtx (ostTree [("job_stats", jobs3)])) jobs3).
  - vm_compute. reflexivity.
  - vm_compute. reflexivity.
  - apply Nat.ltb_lt. vm_compute. reflexivity.
Defined.

(** C9 (counterexample): a job_stats file with no job block, the content
    of a target with no active job, is not cached: two metrics that
    reference it read it twice in one pass, and the cache stays empty. *)
Theorem idle_job_stats_read_twice :
  collect (ostSource [mJobOps; mJobReadSamples]) (newCtx (ostTree [("job_stats", jobsIdle)])) =
  (Ok tt, mkCtx (ostTree [("job_stats", jobsIdle)])
                [ost0 "job_stats"; ost0 "job_stats"] [] [] []).
Proof. vm_compute. reflexivity. Qed.

(** C9: caching of a job_stats path within one context.  A first call on
    a path whose file splits into job blocks reads it once and caches the
    [jobState]s of its well-formed blocks; a later call on the cached path
    reads nothing, leaves the cache alone and projects the cached
    [jobState]s; a first call on a file with no job block ([- ] does not
    occur) reads it, caches nothing and emits nothing, so each later call
    reads it again. *)
Theorem parseJobStatsText_cache_per_path :
  (forall path nodeType nodeName m1 m2 bl1 bl2 c content,
     lookup path (c_filesJobStats c) = None ->
     lookup path (fr_files (c_fr c)) = Some content ->
     (1 < List.length (Split content "- "))%nat ->
     let jss := goodJobs (tl (Split content "- ")) in
     let c1 := snd (parseJobStatsText path nodeType nodeName m1 bl1 c) in
     fst (parseJobStatsText path nodeType nodeName m1 bl1 c) = Ok tt /\
     c_reads c1 = c_reads c ++ [path] /\
     lookup path (c_filesJobStats c1) = Some jss /\
     c_metrics c1 = c_metrics c ++ projSamples m1 nodeType nodeName bl1 jss /\
     parseJobStatsText path nodeType nodeName m2 bl2 c1 =
       (Ok tt, addMetrics c1 (projSamples m2 nodeType nodeName bl2 jss)))
  /\
  (forall path nodeType nodeName metric bl c jss,
     lookup path (c_filesJobStats c) = Some jss ->
     parseJobStatsText path nodeType nodeName metric bl c =
       (Ok tt, addMetrics c (projSamples metric nodeType nodeName bl jss)))
  /\
  (forall path nodeType nodeName metric bl c content,
     lookup path (c_filesJobStats c) = None ->
     lookup path (fr_files (c_fr c)) = Some content ->
     (List.length (Split content "- ") <= 1)%nat ->
     parseJobStatsText path nodeType nodeName metric bl c =
       (Ok tt, mkCtx (c_fr c) (c_reads c ++ [path]) (c_filesJobStats c) (c_metrics c) (c_warns c))).
Proof.
  split; [|split].
  - intros path nodeType nodeName m1 m2 bl1 bl2 c content Hc Hf Hs jss c1.
    subst c1. rewrite (parseJobStatsText_fresh path nodeType nodeName m1 bl1 c content Hc Hf Hs).
    simpl. split; [reflexivity|]. split; [reflexivity|].
    split; [apply lookup_cache_insert|]. split; [reflexivity|].
    apply parseJobStatsText_cached. simpl. apply lookup_cache_insert.
  - intros. apply parseJobStatsText_cached. assumption.
  - intros. eapply parseJobStatsText_no_block; eassumption.
Qed.

Lemma parseJobStatsText_cache_per_path_witness :
  fst (parseJobStatsText (ost0 "job_stats") "ost" "OST0000" mJobOps ["component"; "target"; "jobid"]
         (newCtx (ostTree [("job_stats", jobs3)]))) = Ok tt /\
  c_reads (snd (parseJobStatsText (ost0 "job_stats") "ost" "OST0000" mJobOps
                  ["component"; "target"; "jobid"] (newCtx (ostTree [("job_stats", jobs3)])))) =
    c_reads (newCtx (ostTree [("job_stats", jobs3)])) ++ [ost0 "job_stats"] /\
  lookup (ost0 "job_stats")
    (c_filesJobStats (snd (parseJobStatsText (ost0 "job_stats") "ost" "OST0000" mJobOps
                             ["component"; "target"; "jobid"] (newCtx (ostTree [("job_stats", jobs3)]))))) =
    Some (goodJobs (tl (Split jobs3 "- "))) /\
  c_metrics (snd (parseJobStatsText (ost0 "job_stats") "ost" "OST0000" mJobOps
                    ["component"; "target"; "jobid"] (newCtx (ostTree [("job_stats", jobs3)])))) =
    c_metrics (newCtx (ostTree [("job_stats", jobs3)])) ++
      projSamples mJobOps "ost" "OST0000" ["component"; "target"; "jobid"] (goodJobs (tl (Split jobs3 "- "))) /\
  parseJobStatsText (ost0 "job_stats") "ost" "OST0000" mJobReadSamples ["component"; "target"; "jobid"]
    (snd (parseJobStatsText (ost0 "job_stats") "ost" "OST0000" mJobOps
            ["component"; "target"; "jobid"] (newCtx (ostTree [("job_stats", jobs3)])))) =
    (Ok tt, addMetrics (snd (parseJobStatsText (ost0 "job_stats") "ost" "OST0000" mJobOps
                               ["component"; "target"; "jobid"] (newCtx (ostTree [("job_stats", jobs3)]))))
              (projSamples mJobReadSamples "ost" "OST0000" ["component"; "target"; "jobid"]
                 (goodJobs (tl (Split jobs3 "- "))))).
Proof.
  destruct parseJobStatsText_cache_per_path as [H _].
  apply (H (ost0 "job_stats") "ost" "OST0000" mJobOps mJobReadSamples
           ["component"; "target"; "jobid"] ["component"; "target"; "jobid"]
           (newCtx (ostTree [("job_stats", jobs3)])) jobs3).
  - vm_compute. reflexivity.
  - vm_compute. reflexivity.
  - apply Nat.ltb_lt. vm_compute. reflexivity.
Defined.

(** C5 (failing input): for a job block with an [open] line and no
    [read_bytes] line, the operation projection emits only the [open]
    sample, but the I/O projection of the read-samples metric emits a
    sample of value -1, the absent-counter sentinel. *)
Theorem job_io_absent_counter_emitted :
  c_metrics (snd (collect (ostSource [mJobOps; mJobReadSamples])
                          (newCtx (ostTree [("job_stats", jobsNoRead)])))) =
  [mkMetric Gauge ["component"; "target"; "jobid"; "operation"] ["ost"; "OST0000"; "a"; "open"]
            "lustre_job_stats" "jobStatsHelp" (inject_Z 3);
   mkMetric Gauge ["component"; "target"; "jobid"] ["ost"; "OST0000"; "a"]
            "lustre_job_stats" readSamplesHelp (inject_Z (-1))].
Proof. vm_compute. reflexivity. Qed.

End JobCacheFacts.

(* ================================================================== *)
(** * Collection passes: errors, histogram rows, stats lines *)

Module CollectFacts.

Import GoStr ProcfsV2 JobViews ProcFixtures.
Local Open Scope list_scope.

(** ** Samples are only ever appended *)

Definition grows {A} (m : M A) : Prop :=
  forall c, exists l, c_metrics (snd (m c)) = c_metrics c ++ l.

Lemma grows_ret {A} (a : A) : grows (ret a).
Proof. intros c. exists []. rewrite app_nil_r. reflexivity. Qed.

Lemma grows_lift {A} (r : res A) : grows (lift r).
Proof. intros c. exists []. rewrite app_nil_r. reflexivity. Qed.

Lemma grows_bind {A B} (m : M A) (k : A -> M B) :
  grows m -> (forall a, grows (k a)) -> grows (bind m k).
Proof.
  intros Hm Hk c. unfold bind. destruct (Hm c) as [l1 E1].
  destruct (m c) as [[a|e|p] c'] eqn:Em; simpl in *.
  - destruct (Hk a c') as [l2 E2]. exists (l1 ++ l2).
    rewrite E2, E1, app_assoc. reflexivity.
  - exists l1. exact E1.
  - exists l1. exact E1.
Qed.

Lemma grows_readFile p : grows (readFile p).
Proof.
  intros c. exists []. rewrite app_nil_r. unfold readFile.
  destruct (lookup p (fr_files (c_fr c))); reflexivity.
Qed.

Lemma grows_glob p : grows (glob p).
Proof.
  intros c. exists []. rewrite app_nil_r. unfold glob.
  destruct (lookup p (fr_globs (c_fr c))) as [[|]|]; reflexivity.
Qed.

Lemma grows_warn msg : grows (warn msg).
Proof. intros c. exists []. rewrite app_nil_r. reflexivity. Qed.

Lemma grows_getCache p : grows (getCache p).
Proof. intros c. exists []. rewrite app_nil_r. reflexivity. Qed.

Lemma grows_setCache p v : grows (setCache p v).
Proof. intros c. exists []. rewrite app_nil_r. reflexivity. Qed.

Lemma grows_appendMetrics metric bl lv v el elv : grows (appendMetrics metric bl lv v el elv).
Proof.
  intros c. unfold appendMetrics.
  destruct (if String.eqb el "" then (bl, lv) else (bl ++ [el], lv ++ [elv])).
  eexists. reflexivity.
Qed.

Lemma grows_forM_ {A} (l : list A) (f : A -> M unit) :
  (forall x, grows (f x)) -> grows (forM_ l f).
Proof.
  intros Hf. induction l as [|x l IH]; simpl.
  - apply grows_ret.
  - apply grows_bind; [apply Hf | intros _; exact IH].
Qed.

Create HintDb grows_db.
#[local] Hint Resolve grows_ret grows_lift grows_readFile grows_glob grows_warn grows_getCache
  grows_setCache grows_appendMetrics : grows_db.

Ltac grow :=
  repeat match goal with
  | |- grows (bind _ _) => apply grows_bind; [|intro]
  | |- grows (forM_ _ _) => apply grows_forM_; intro
  | |- grows (if ?b then _ else _) => destruct b
  | |- grows (match ?x with _ => _ end) => destruct x
  | |- grows _ => solve [eauto with grows_db]
  | |- grows _ => progress cbv beta zeta
  end.

Lemma grows_parseJobs jobs : forall acc, grows (parseJobs jobs acc).
Proof.
  induction jobs as [|job jobs IH]; intros acc; simpl; grow.
Qed.
#[local] Hint Resolve grows_parseJobs : grows_db.

Lemma grows_getJobStatsOperationMetrics jss nT nN m bl :
  grows (getJobStatsOperationMetrics jss nT nN m bl).
Proof. unfold getJobStatsOperationMetrics. grow. Qed.

Lemma grows_getJobStatsIOMetrics jss nT nN m bl :
  grows (getJobStatsIOMetrics jss nT nN m bl).
Proof. unfold getJobStatsIOMetrics. grow. Qed.
#[local] Hint Resolve grows_getJobStatsOperationMetrics grows_getJobStatsIOMetrics : grows_db.

Lemma grows_parseJobStats nT mt p d m bl : grows (parseJobStats nT mt p d m bl).
Proof. unfold parseJobStats, parseJobStatsText. grow. Qed.

Lemma grows_splitBRWStats nT nN blk m bl el elv : grows (splitBRWStats nT nN blk m bl el elv).
Proof. unfold splitBRWStats, splitBRWRow. grow. Qed.
#[local] Hint Resolve grows_splitBRWStats : grows_db.

Lemma grows_parseBRWStats nT mt p d m bl : grows (parseBRWStats nT mt p d m bl).
Proof. unfold parseBRWStats. grow. Qed.

Lemma grows_parseFile nT mt p d m bl : grows (parseFile nT mt p d m bl).
Proof. unfold parseFile, parseStatsFile, getStatsOperationMetrics, getStatsIOMetrics. grow. Qed.
#[local] Hint Resolve grows_parseJobStats grows_parseBRWStats grows_parseFile : grows_db.

Lemma grows_collect s : grows (collect s).
Proof. unfold collect, collectMetric, collectPath. grow. Qed.

(** ** The error paths of [collect] *)

Lemma forM_stops_at_error {A} (f : A -> M unit) pre x post c c1 e c2 :
  forM_ pre f c = (Ok tt, c1) -> f x c1 = (Err e, c2) ->
  forM_ (pre ++ x :: post) f c = (Err e, c2).
Proof.
  revert c. induction pre as [|y pre IH]; intros c Hpre Hx; simpl in *.
  - unfold ret in Hpre. injection Hpre as <-. unfold bind. rewrite Hx. reflexivity.
  - unfold bind in *. destruct (f y c) as [[[]|e'|p'] c'].
    + apply IH; assumption.
    + discriminate.
    + discriminate.
Qed.

Lemma scalar_collectPath_parse_error m d p c elems v e :
  scalarMetricFile (filename m) = true ->
  parseFileElements p d = Ok elems ->
  lookup (Clean p) (fr_files (c_fr c)) = Some v ->
  ParseFloat (TrimSpace v) = Err e ->
  collectPath m d p c =
  (Err e, mkCtx (c_fr c) (c_reads c ++ [Clean p]) (c_filesJobStats c) (c_metrics c) (c_warns c)).
Proof.
  intros Hs He Hf Hp. unfold scalarMetricFile in Hs.
  apply negb_true_iff in Hs. repeat rewrite orb_false_iff in Hs.
  destruct Hs as [[[[[H1 H2] H3] H4] H5] H6].
  unfold collectPath. rewrite H1, H2, H3, H4, H5, H6. simpl.
  unfold parseFile, bind at 1, lift. rewrite He.
  rewrite String.eqb_refl.
  unfold bind at 1, readFile. rewrite Hf. unfold bind. rewrite Hp. reflexivity.
Qed.

Lemma runSources_independent fr srcs name s :
  In (name, s) srcs ->
  In (name, fst (collect s (newCtx fr)), c_metrics (snd (collect s (newCtx fr)))) (runSources fr srcs).
Proof.
  intros Hin. unfold runSources. apply in_map_iff. exists (name, s). split; [|exact Hin].
  destruct (collect s (newCtx fr)). reflexivity.
Qed.

(** C4 (counterexample): in a source with two scalar files whose first is
    not a number, the parse error ends the whole source pass, so the
    well-formed sibling file, which alone yields the sample 5, yields no
    sample and is not even read. *)
Theorem collect_error_drops_sibling_file :
  collect (ostSource [mBad; mGood]) (newCtx scalarTree) =
    (Err "strconv.ParseFloat: invalid syntax", mkCtx scalarTree [ost0 "bad_count"] [] [] []) /\
  c_metrics (snd (collect (ostSource [mGood]) (newCtx scalarTree))) =
    [mkMetric Gauge ["component"; "target"] ["ost"; "OST0000"] "lustre_good_count" "goodHelp" (inject_Z 5)].
Proof. split; vm_compute; reflexivity. Qed.

(** C4: a parse error stops the collection of its whole source for the
    pass.  (1) An error from one metric's files makes [collect] return it
    at once, with the metrics after it left unvisited; (2) an error from
    one path of a metric makes the metric return it at once, with the
    later paths left unread; (3) a scalar file whose trimmed content is not
    a number is such an error; (4) every step only appends samples, so the
    samples of the files handled before the error stay in the context;
    (5) each source of a pass is collected in its own fresh context, so
    its result and samples do not depend on the other sources. *)
Theorem collect_error_ends_source :
  (forall s pre m post c c1 e c2,
     lustreProcMetrics s = pre ++ m :: post ->
     forM_ pre (collectMetric s) c = (Ok tt, c1) ->
     collectMetric s m c1 = (Err e, c2) ->
     collect s c = (Err e, c2)) /\
  (forall s m c pre p post c1 e c2,
     glob (Join [basePath s; path m; filename m]) c = (Ok (pre ++ p :: post), c) ->
     forM_ pre (collectPath m (Z.of_nat (CountChar (filename m) "/"%char))) c = (Ok tt, c1) ->
     collectPath m (Z.of_nat (CountChar (filename m) "/"%char)) p c1 = (Err e, c2) ->
     collectMetric s m c = (Err e, c2)) /\
  (forall m d p c elems v e,
     scalarMetricFile (filename m) = true ->
     parseFileElements p d = Ok elems ->
     lookup (Clean p) (fr_files (c_fr c)) = Some v ->
     ParseFloat (TrimSpace v) = Err e ->
     collectPath m d p c =
     (Err e, mkCtx (c_fr c) (c_reads c ++ [Clean p]) (c_filesJobStats c) (c_metrics c) (c_warns c))) /\
  (forall s c, exists l, c_metrics (snd (collect s c)) = c_metrics c ++ l) /\
  (forall fr srcs name s,
     In (name, s) srcs ->
     In (name, fst (collect s (newCtx fr)), c_metrics (snd (collect s (newCtx fr))))
        (runSources fr srcs)).
Proof.
  split; [|split; [|split; [|split]]].
  - intros s pre m post c c1 e c2 Hl Hpre Hm.
    unfold collect. rewrite Hl. eapply forM_stops_at_error; eassumption.
  - intros s m c pre p post c1 e c2 Hg Hpre Hp.
    unfold collectMetric, bind at 1. rewrite Hg.
    eapply forM_stops_at_error; eassumption.
  - intros. eapply scalar_collectPath_parse_error; eassumption.
  - intros s. apply grows_collect.
  - intros. apply runSources_independent. assumption.
Qed.

Lemma collect_error_ends_source_witness :
  collect (ostSource [mBad; mGood]) (newCtx scalarTree) =
  (Err "strconv.ParseFloat: invalid syntax", mkCtx scalarTree [ost0 "bad_count"] [] [] []).
Proof.
  destruct collect_error_ends_source as [H1 [H2 [H3 _]]].
  apply (H1 (ostSource [mBad; mGood]) [] mBad [mGood] (newCtx scalarTree) (newCtx scalarTree));
    [reflexivity | reflexivity |].
  apply (H2 (ostSource [mBad; mGood]) mBad (newCtx scalarTree) [] (ost0 "bad_count") []
           (newCtx scalarTree)); [vm_compute; reflexivity | reflexivity |].
  apply (H3 mBad (Z.of_nat (CountChar (filename mBad) "/"%char)) (ost0 "bad_count")
           (newCtx scalarTree) ("bad_count", "OST0000") (lines ["abc"])).
  - vm_compute. reflexivity.
  - vm_compute. reflexivity.
  - vm_compute. reflexivity.
  - vm_compute. reflexivity.
Defined.

(** ** Histogram rows *)

(** C7 (failing input): in a [brw_stats] block, a row with a single field
    ([1:]) makes [splitBRWStats] index [fields[1]] and panic, which ends
    the pass of the source; a row with two fields does degrade to one
    read sample whose value is its second field. *)
Theorem brw_one_field_row_panics :
  fst (collect (ostSource [mBRW]) (newCtx (ostTree [("brw_stats", brwOneField)]))) =
    Panic "index out of range" /\
  collect (ostSource [mBRW]) (newCtx (ostTree [("brw_stats", brwTwoFields)])) =
    (Ok tt, mkCtx (ostTree [("brw_stats", brwTwoFields)]) [ost0 "brw_stats"] []
                  [mkMetric Gauge ["component"; "target"; "operation"; "size"]
                            ["ost"; "OST0000"; "read"; "1"] "lustre_brw_stats"
                            pagesPerBlockRWHelp (inject_Z 5)] []).
Proof. split; vm_compute; reflexivity. Qed.

(** ** [write_bytes] lines of [stats] files *)

(** C8 (counterexample): the line
    [write_bytes: { samples: 10, unit: bytes, min: 1, max: 5, sum: 20 }]
    does not match the pattern [write_bytes .*] (a colon, not a space,
    follows the name), so none of the four write metrics gets a sample. *)
Theorem stats_brace_write_bytes_no_sample :
  fst (collect (ostSource writeMetrics) (newCtx (ostTree [("stats", statsBrace)]))) = Ok tt /\
  c_metrics (snd (collect (ostSource writeMetrics) (newCtx (ostTree [("stats", statsBrace)])))) = [].
Proof. split; vm_compute; reflexivity. Qed.

(** C8: on the Lustre [stats] line
    [write_bytes               10 samples [bytes] 1 5 20], split on runs of
    spaces, the samples metric reads field 1 (10), the minimum field 4 (1),
    the maximum field 5 (5) and the total field 6 (20), one sample each. *)
Theorem stats_write_bytes_positions :
  fst (collect (ostSource writeMetrics) (newCtx (ostTree [("stats", statsLustre)]))) = Ok tt /\
  map (fun m => (m_help m, m_value m))
      (c_metrics (snd (collect (ostSource writeMetrics) (newCtx (ostTree [("stats", statsLustre)]))))) =
  [(writeSamplesHelp, inject_Z 10); (writeMinimumHelp, inject_Z 1);
   (writeMaximumHelp, inject_Z 5); (writeTotalHelp, inject_Z 20)].
Proof. split; vm_compute; reflexivity. Qed.

End CollectFacts.


(* ================================================================== *)
(** * Further scheduler properties *)

Module RunnerExtra.

Import Runner.
Local Open Scope Z_scope.

Lemma pickWorker_some ws a : pickWorker (Some a) ws <> None.
Proof.
  revert a. induction ws as [|w ws IH]; intros a; simpl; [discriminate|].
  destruct (Before (w_creat a) (w_creat w)); apply IH.
Qed.

Lemma pickWorker_in ws : forall ret x, pickWorker ret ws = Some x -> ret = Some x \/ In x ws.
Proof.
  induction ws as [|w ws IH]; intros ret x H; simpl in H; [left; exact H|].
  destruct ret as [r|].
  - destruct (Before (w_creat r) (w_creat w)).
    + destruct (IH _ _ H) as [E|E]; [injection E as <-; right; left; reflexivity|right; right; exact E].
    + destruct (IH _ _ H) as [E|E]; [left; exact E|right; right; exact E].
  - destruct (IH _ _ H) as [E|E]; [injection E as <-; right; left; reflexivity|right; right; exact E].
Qed.

Lemma NoDup_snoc {A} (l : list A) x : NoDup l -> ~ In x l -> NoDup (l ++ [x]).
Proof.
  induction l as [|a l IH]; intros Hn Hx; simpl; [constructor; [intros []|constructor]|].
  inversion Hn as [|? ? Ha Hl]; subst. constructor.
  - rewrite in_app_iff. intros [H|[H|[]]]; [contradiction|subst; apply Hx; left; reflexivity].
  - apply IH; [exact Hl|intros H; apply Hx; right; exact H].
Qed.

Lemma NoDup_map_filter {A B} (f : A -> B) (p : A -> bool) l :
  NoDup (map f l) -> NoDup (map f (filter p l)).
Proof.
  induction l as [|a l IH]; intros Hn; simpl; [constructor|].
  inversion Hn as [|? ? Ha Hl]; subst.
  destruct (p a); simpl; [|apply IH; exact Hl].
  constructor; [|apply IH; exact Hl].
  intros H. apply Ha. apply in_map_iff in H. destruct H as [y [Ey Hy]].
  apply filter_In in Hy. apply in_map_iff. exists y. split; [exact Ey|apply Hy].
Qed.

Lemma Forall_filter_keep {A} (P : A -> Prop) (p : A -> bool) l :
  Forall P l -> Forall P (filter p l).
Proof.
  rewrite !Forall_forall. intros H x Hx. apply filter_In in Hx. apply H, Hx.
Qed.

(** The bookkeeping every reachable state keeps. *)
Lemma reachable_inv MAX r :
  reachable MAX r ->
  launched r = seq 0 (nextId r) /\ NoDup (map w_id (workers r)) /\
  Forall (fun w => (w_id w < nextId r)%nat) (workers r).
Proof.
  induction 1 as [|r l now Hr IH|r w Hr IH].
  - simpl. split; [reflexivity|split; constructor].
  - destruct IH as [H1 [H2 H3]]. unfold getRunnerWorker.
    destruct (MAX <=? Z.of_nat (List.length (workers r)));
      cbn [fst snd run launched workers nextId lastSuccess w_id]; [auto|].
    split; [|split].
    + rewrite H1, seq_S. reflexivity.
    + rewrite map_app. simpl. apply NoDup_snoc; [exact H2|].
      intros Hin. apply in_map_iff in Hin. destruct Hin as [y [Ey Hy]].
      rewrite Forall_forall in H3. specialize (H3 y Hy). simpl in *. lia.
    + apply Forall_app. split.
      * eapply Forall_impl; [|exact H3]. intros y Hy. simpl in *. lia.
      * constructor; [simpl; lia|constructor].
  - destruct IH as [H1 [H2 H3]]. unfold doneForWorker. simpl.
    split; [exact H1|split].
    + apply NoDup_map_filter. exact H2.
    + apply Forall_filter_keep. exact H3.
Qed.

Lemma steps_avoid MAX r0 r2 i :
  steps MAX r0 r2 ->
  (i < nextId r0)%nat -> Forall (fun y => w_id y <> i) (workers r0) ->
  (i < nextId r2)%nat /\ Forall (fun y => w_id y <> i) (workers r2).
Proof.
  intros Hs Hi Hw. induction Hs as [|r l now Hs IH|r w Hs IH].
  - auto.
  - destruct IH as [IH1 IH2]. unfold getRunnerWorker.
    destruct (MAX <=? Z.of_nat (List.length (workers r))); simpl; [auto|].
    split; [lia|]. apply Forall_app. split; [exact IH2|].
    constructor; [simpl; lia|constructor].
  - destruct IH as [IH1 IH2]. unfold doneForWorker. simpl.
    split; [exact IH1|]. apply Forall_filter_keep. exact IH2.
Qed.

(** X1: with the worker count [main] sets up ([mainMaxWorker], never below
    1), [getRunnerWorker] hands every request a worker, from any state;
    with a maximum [<= 0] it would return no worker ([nil]) to the first
    request. *)
Theorem mainMaxWorker_always_attaches (flag : Z) (lst : list string) (now : Z) (r : runner) :
  0 < mainMaxWorker flag /\
  (exists w, fst (getRunnerWorker (mainMaxWorker flag) lst now r) = Some w) /\
  (forall m, m <= 0 -> fst (getRunnerWorker m lst now insRunner) = None).
Proof.
  assert (Hpos : 0 < mainMaxWorker flag).
  { unfold mainMaxWorker. destruct (flag <=? 0) eqn:E; [lia|apply Z.leb_gt in E; lia]. }
  split; [exact Hpos|split].
  - unfold getRunnerWorker.
    destruct (mainMaxWorker flag <=? Z.of_nat (List.length (workers r))) eqn:E.
    + apply Z.leb_le in E. destruct (workers r) as [|w ws]; simpl in E; [lia|].
      simpl. destruct (pickWorker (Some w) ws) eqn:P; [eexists; reflexivity|].
      exfalso. eapply pickWorker_some; eauto.
    + simpl. eexists. reflexivity.
  - intros m Hm. unfold getRunnerWorker. simpl.
    destruct (m <=? 0) eqn:E; [reflexivity|apply Z.leb_gt in E; lia].
Qed.

Lemma mainMaxWorker_always_attaches_witness :
  mainMaxWorker 0 = 4 /\ fst (getRunnerWorker 0 ["ost"] 5 insRunner) = None.
Proof.
  split; [reflexivity|].
  apply (proj2 (proj2 (mainMaxWorker_always_attaches 0 ["ost"] 5 insRunner))). lia.
Defined.



(** X3: once an in-flight worker has completed ([doneForWorker]), no
    later [getRunnerWorker] call, after any further scheduler operations,
    hands that worker to a request again. *)
Theorem done_worker_never_returned (MAX : Z) (r r2 : runner) (w : worker)
    (lst : list string) (now : Z) (x : worker) :
  reachable MAX r -> In w (workers r) -> steps MAX (doneForWorker w r) r2 ->
  fst (getRunnerWorker MAX lst now r2) = Some x -> w_id x <> w_id w.
Proof.
  intros Hr Hin Hs Hx.
  destruct (reachable_inv MAX r Hr) as [_ [_ H3]].
  rewrite Forall_forall in H3. pose proof (H3 w Hin) as Hlt.
  destruct (steps_avoid MAX _ _ (w_id w) Hs) as [Hn Hf].
  - exact Hlt.
  - unfold doneForWorker. simpl. rewrite Forall_forall. intros y Hy.
    apply filter_In in Hy. destruct Hy as [_ Hy].
    apply negb_true_iff, Nat.eqb_neq in Hy. exact Hy.
  - unfold getRunnerWorker in Hx.
    destruct (MAX <=? Z.of_nat (List.length (workers r2))); simpl in Hx.
    + apply pickWorker_in in Hx. destruct Hx as [Hx|Hx]; [discriminate|].
      rewrite Forall_forall in Hf. apply Hf, Hx.
    + injection Hx as <-. simpl. lia.
Qed.

Lemma done_worker_never_returned_witness :
  exists x,
    fst (getRunnerWorker 4 ["ost"] 3
           (doneForWorker (newWorker ["ost"] 0 1) (snd (getRunnerWorker 4 ["ost"] 1 insRunner))))
      = Some x /\ w_id x <> w_id (newWorker ["ost"] 0 1).
Proof.
  eexists. split; [reflexivity|].
  apply (done_worker_never_returned 4 (snd (getRunnerWorker 4 ["ost"] 1 insRunner))
           (doneForWorker (newWorker ["ost"] 0 1) (snd (getRunnerWorker 4 ["ost"] 1 insRunner)))
           (newWorker ["ost"] 0 1) ["ost"] 3).
  - apply reach_get, reach_init.
  - simpl. left. reflexivity.
  - apply steps_refl.
  - reflexivity.
Defined.

(** X4: a request whose time is not after the end of the last completed
    pass (for instance after the clock was set back) is always served from
    that pass, however far back the clock went, whenever [SHELF_LIFE] is
    not negative. *)
Theorem updateV2_replays_when_clock_behind (MAX SHELF : Z) (lst : list string) (now : Z)
    (r : runner) (w : worker) :
  lastSuccess r = Some w -> now <= w_end w -> 0 <= SHELF ->
  updateV2 MAX SHELF lst now r = (Replayed (worker_update w), r).
Proof.
  intros Hl Hn Hs. unfold updateV2. rewrite Hl.
  assert (E : (time_Sub now (w_end w) <=? SHELF) = true).
  { apply Z.leb_le. unfold time_Sub, minDuration, maxDuration. lia. }
  rewrite E. reflexivity.
Qed.

Lemma updateV2_replays_when_clock_behind_witness :
  updateV2 4 1000000000 ["ost"] 0 Fixtures.rDone = (Replayed (worker_update Fixtures.wDone), Fixtures.rDone).
Proof.
  apply (updateV2_replays_when_clock_behind 4 1000000000 ["ost"] 0 Fixtures.rDone Fixtures.wDone);
    [reflexivity|vm_compute; discriminate|lia].
Defined.

(** X5: a request that finds no completed pass, or only one older than
    [SHELF_LIFE], while fewer than [MAX_WORKER] passes are in flight,
    creates one new worker with a fresh identity, launches its fan-out,
    and waits on it; the last completed pass stays recorded. *)
Theorem updateV2_stale_starts_pass (MAX SHELF : Z) (lst : list string) (now : Z) (r : runner) :
  match lastSuccess r with Some w => SHELF < time_Sub now (w_end w) | None => True end ->
  Z.of_nat (List.length (workers r)) < MAX ->
  updateV2 MAX SHELF lst now r =
  (Attached (Some (mkWorker (nextId r) lst [] now now 0)),
   mkRunner (workers r ++ [newWorker lst (nextId r) now]) (lastSuccess r) (S (nextId r))
            (launched r ++ [nextId r])).
Proof.
  intros Hs Hc. unfold updateV2.
  assert (E : (MAX <=? Z.of_nat (List.length (workers r))) = false) by (apply Z.leb_gt; lia).
  destruct (lastSuccess r) as [w|] eqn:L.
  - assert (E2 : (time_Sub now (w_end w) <=? SHELF) = false) by (apply Z.leb_gt; lia).
    rewrite E2. unfold getRunnerWorker. rewrite E. simpl. rewrite L. reflexivity.
  - unfold getRunnerWorker. rewrite E. simpl. rewrite L. reflexivity.
Qed.

Lemma updateV2_stale_starts_pass_witness :
  updateV2 4 1000000000 ["ost"] 7000000000 Fixtures.rDone =
  (Attached (Some (mkWorker 1 ["ost"] [] 7000000000 7000000000 0)),
   mkRunner [newWorker ["ost"] 1 7000000000] (Some Fixtures.wDone) 2 [0%nat; 1%nat]).
Proof.
  apply (updateV2_stale_starts_pass 4 1000000000 ["ost"] 7000000000 Fixtures.rDone);
    vm_compute; reflexivity.
Defined.

End RunnerExtra.

(* ================================================================== *)
(** * String lemmas and the path decomposition *)

Module StrFacts.

Import GoStr ProcfsV2 JobFacts.
Local Open Scope list_scope.

Lemma chars_app s1 s2 : chars (String.append s1 s2) = chars s1 ++ chars s2.
Proof. unfold chars. induction s1 as [|a s1 IH]; simpl; congruence. Qed.

Lemma str_chars s : str (chars s) = s.
Proof. apply string_of_list_ascii_of_string. Qed.



Lemma split_aux_skip c : forall a rest fuel cur,
  ~ In c a -> (List.length a <= fuel)%nat ->
  split_aux fuel [c] (a ++ rest) cur = split_aux (fuel - List.length a) [c] rest (rev a ++ cur).
Proof.
  induction a as [|x a IH]; intros rest fuel cur Hn Hf.
  - simpl. rewrite Nat.sub_0_r. reflexivity.
  - destruct fuel as [|f]; [simpl in Hf; lia|].
    assert (E : Ascii.eqb c x = false).
    { apply Ascii.eqb_neq. intros <-. apply Hn. left. reflexivity. }
    simpl. rewrite E. simpl. rewrite IH.
    + rewrite <- app_assoc. reflexivity.
    + intros H. apply Hn. right. exact H.
    + simpl in Hf. lia.
Qed.

Lemma split_aux_fuel c : forall f1 f2 l cur,
  (List.length l < f1)%nat -> (List.length l < f2)%nat ->
  split_aux f1 [c] l cur = split_aux f2 [c] l cur.
Proof.
  induction f1 as [|f1 IH]; intros [|f2] l cur H1 H2; try lia.
  destruct l as [|x l]; simpl; [reflexivity|].
  destruct (Ascii.eqb c x); simpl.
  - f_equal. apply IH; simpl in *; lia.
  - apply IH; simpl in *; lia.
Qed.

(** [Split] on a one-byte separator: the text before the first separator
    is the first piece. *)
Lemma Split_sep_cons c h rest :
  ~ In c (chars h) ->
  Split (String.append h (String.append (String c EmptyString) rest)) (String c EmptyString) =
  h :: Split rest (String c EmptyString).
Proof.
  intros Hn. unfold Split. rewrite <- !length_chars, !chars_app.
  change (chars (String c EmptyString)) with [c]. simpl (_ ++ chars rest).
  rewrite split_aux_skip by (try exact Hn; rewrite length_app; simpl; lia).
  rewrite length_app. simpl List.length.
  replace (S (List.length (chars h) + S (List.length (chars rest))) - List.length (chars h))%nat
    with (S (S (List.length (chars rest)))) by lia.
  simpl. rewrite Ascii.eqb_refl. simpl. rewrite app_nil_r, rev_involutive, str_chars.
  reflexivity.
Qed.

Lemma Split_nosep c h :
  ~ In c (chars h) -> Split h (String c EmptyString) = [h].
Proof.
  intros Hn. unfold Split. rewrite <- length_chars.
  change (chars (String c EmptyString)) with [c].
  rewrite <- (app_nil_r (chars h)) at 2.
  rewrite split_aux_skip by (try exact Hn; lia).
  replace (S (List.length (chars h)) - List.length (chars h))%nat with 1%nat by lia.
  simpl. rewrite app_nil_r, rev_involutive, str_chars. reflexivity.
Qed.

Lemma Split_concat c es :
  es <> [] -> Forall (fun e => ~ In c (chars e)) es ->
  Split (String.concat (String c EmptyString) es) (String c EmptyString) = es.
Proof.
  induction es as [|x es IH]; intros Hne Hf; [contradiction|].
  inversion Hf as [|? ? Hx Hes]; subst.
  destruct es as [|y ys].
  - apply Split_nosep. exact Hx.
  - change (String.concat (String c EmptyString) (x :: y :: ys)) with
      (String.append x (String.append (String c EmptyString)
        (String.concat (String c EmptyString) (y :: ys)))).
    rewrite Split_sep_cons by exact Hx. f_equal. apply IH; [discriminate|exact Hes].
Qed.

Lemma nth_error_last {A} (l : list A) d :
  l <> [] -> nth_error l (List.length l - 1) = Some (last l d).
Proof.
  intros Hne. destruct (exists_last Hne) as [l' [a ->]].
  rewrite length_app, last_last. simpl.
  replace (List.length l' + 1 - 1)%nat with (List.length l') by lia.
  rewrite nth_error_app2 by lia. rewrite Nat.sub_diag. reflexivity.
Qed.

(** ** Single-character facts *)

Lemma digit_not_space x : isDigit x = true -> isSpace x = false.
Proof.
  unfold isDigit, isSpace. set (n := nat_of_ascii x). intros H.
  apply andb_prop in H. destruct H as [H1 H2]. apply Nat.leb_le in H1, H2.
  destruct (Nat.leb_spec 9 n), (Nat.leb_spec n 13), (Nat.eqb_spec n 32); simpl; try lia; reflexivity.
Qed.

Lemma dropSpaces_keep l : forallb (fun x => negb (isSpace x)) l = true -> dropSpaces l = l.
Proof.
  destruct l as [|x l]; simpl; [reflexivity|].
  intros H. apply andb_prop in H. destruct H as [H _].
  apply negb_true_iff in H. rewrite H. reflexivity.
Qed.

Lemma dropSpaces_spaces_app a l : forallb isSpace a = true -> dropSpaces (a ++ l) = dropSpaces l.
Proof.
  induction a as [|x a IH]; simpl; [reflexivity|].
  intros H. apply andb_prop in H. destruct H as [Hx Ha]. rewrite Hx. apply IH, Ha.
Qed.

Lemma forallb_rev {A} (f : A -> bool) l : forallb f (rev l) = forallb f l.
Proof.
  induction l as [|x l IH]; simpl; [reflexivity|].
  rewrite forallb_app, IH. simpl. rewrite andb_true_r, andb_comm. reflexivity.
Qed.

(** [TrimSpace] leaves a string with no white space unchanged, and strips
    any leading white space. *)
Lemma TrimSpace_spaces_app a k :
  forallb isSpace (chars a) = true -> forallb (fun x => negb (isSpace x)) (chars k) = true ->
  TrimSpace (String.append a k) = k.
Proof.
  intros Ha Hk. unfold TrimSpace. rewrite chars_app, dropSpaces_spaces_app by exact Ha.
  rewrite (dropSpaces_keep (chars k)) by exact Hk.
  rewrite dropSpaces_keep by (rewrite forallb_rev; exact Hk).
  rewrite rev_involutive. apply str_chars.
Qed.

Lemma TrimSpace_plain k :
  forallb (fun x => negb (isSpace x)) (chars k) = true -> TrimSpace k = k.
Proof. intros Hk. apply (TrimSpace_spaces_app "" k); [reflexivity|exact Hk]. Qed.

Lemma lindex_single_app c a b : ~ In c a -> lindex [c] (a ++ c :: b) = Some (List.length a).
Proof.
  induction a as [|x a IH]; intros Hn; simpl.
  - rewrite Ascii.eqb_refl. reflexivity.
  - assert (E : Ascii.eqb c x = false).
    { apply Ascii.eqb_neq. intros <-. apply Hn. left. reflexivity. }
    rewrite E. simpl. rewrite IH; [reflexivity|]. intros H. apply Hn. right. exact H.
Qed.

Lemma In_forallb {A} (f : A -> bool) l x : forallb f l = true -> In x l -> f x = true.
Proof. rewrite forallb_forall. intros H. apply H. Qed.

(** The key of a line [<spaces><key>:<rest>], as [parsingFromText] cuts it. *)
Lemma line_key sp k rest :
  forallb isSpace (chars sp) = true -> chars k <> [] ->
  forallb (fun x => negb (isSpace x) && negb (Ascii.eqb x ":"%char)) (chars k) = true ->
  exists n,
    Index (String.append sp (String.append k (String.append ":" rest))) ":" = Some (S n) /\
    TrimSpace (str (firstn (S n) (chars (String.append sp (String.append k (String.append ":" rest)))))) = k.
Proof.
  intros Hsp Hne Hk.
  assert (Hc : ~ In ":"%char (chars sp ++ chars k)).
  { rewrite in_app_iff. intros [H|H].
    - apply (In_forallb _ _ _ Hsp) in H. discriminate.
    - apply (In_forallb _ _ _ Hk) in H. rewrite Ascii.eqb_refl, andb_false_r in H. discriminate. }
  destruct (chars k) as [|k0 ks] eqn:Ek; [contradiction|].
  exists (List.length (chars sp) + List.length ks)%nat. split.
  - unfold Index. rewrite !chars_app, Ek. change (chars ":") with [":"%char].
    simpl ([_] ++ chars rest). rewrite app_assoc, lindex_single_app by exact Hc.
    rewrite length_app. simpl. f_equal. lia.
  - rewrite !chars_app, Ek, app_assoc, firstn_app.
    replace (S (List.length (chars sp) + List.length ks) - List.length (chars sp ++ k0 :: ks))%nat
      with 0%nat by (rewrite length_app; cbn [List.length]; lia).
    rewrite firstn_O, app_nil_r.
    replace (S (List.length (chars sp) + List.length ks)) with (List.length (chars sp ++ k0 :: ks))
      by (rewrite length_app; simpl; lia).
    rewrite firstn_all, <- Ek.
    rewrite <- chars_app, str_chars. apply TrimSpace_spaces_app; [exact Hsp|].
    rewrite forallb_forall. intros x Hx. rewrite Ek in Hx. apply (In_forallb _ _ _ Hk) in Hx.
    apply andb_prop in Hx. apply Hx.
Qed.

(** ** [reNum] on text made of separators and digit runs *)

Lemma span_digits_app ds post :
  forallb isDigit ds = true ->
  match post with [] => true | x :: _ => negb (isDigit x) end = true ->
  span_digits (ds ++ post) = (ds, post).
Proof.
  induction ds as [|d ds IH]; intros Hd Hp; simpl.
  - destruct post as [|x post]; [reflexivity|]. simpl.
    apply negb_true_iff in Hp. rewrite Hp. reflexivity.
  - simpl in Hd. apply andb_prop in Hd. destruct Hd as [Hd Hds].
    rewrite Hd, IH by assumption. reflexivity.
Qed.

Lemma reNum_at_digits ds post :
  ds <> [] -> forallb isDigit ds = true ->
  match post with [] => true | x :: _ => negb (isNumChar x) end = true ->
  reNum_at (ds ++ post) = Some (ds, post).
Proof.
  intros Hne Hd Hp. unfold reNum_at. rewrite span_digits_app.
  - destruct post as [|x post].
    + destruct ds; [contradiction|reflexivity].
    + unfold isNumChar in Hp. apply negb_true_iff, orb_false_iff in Hp. destruct Hp as [_ Hp].
      rewrite Hp. destruct ds; [contradiction|reflexivity].
  - exact Hd.
  - destruct post as [|x post]; [reflexivity|].
    unfold isNumChar in Hp. apply negb_true_iff, orb_false_iff in Hp. destruct Hp as [Hp _].
    rewrite Hp. reflexivity.
Qed.

Lemma reNum_all_skip m : forall l fuel,
  forallb (fun x => negb (isNumChar x)) m = true -> (List.length m <= fuel)%nat ->
  reNum_all fuel (m ++ l) = reNum_all (fuel - List.length m) l.
Proof.
  induction m as [|x m IH]; intros l fuel Hm Hf.
  - simpl. rewrite Nat.sub_0_r. reflexivity.
  - destruct fuel as [|f]; [simpl in Hf; lia|].
    simpl in Hm. apply andb_prop in Hm. destruct Hm as [Hx Hm].
    unfold isNumChar in Hx. apply negb_true_iff, orb_false_iff in Hx. destruct Hx as [Hx1 Hx2].
    simpl. unfold reNum_at. simpl. rewrite Hx1. simpl. rewrite Hx2.
    apply IH; [exact Hm|simpl in Hf; lia].
Qed.

(** One separator followed by a digit run: the run is the next match. *)
Lemma reNum_all_segment m ds post fuel :
  forallb (fun x => negb (isNumChar x)) m = true ->
  ds <> [] -> forallb isDigit ds = true ->
  match post with [] => true | x :: _ => negb (isNumChar x) end = true ->
  (List.length (m ++ ds ++ post) < fuel)%nat ->
  exists f', (List.length post < f')%nat /\ reNum_all fuel (m ++ ds ++ post) = ds :: reNum_all f' post.
Proof.
  intros Hm Hne Hd Hp Hf. rewrite !length_app in Hf.
  rewrite reNum_all_skip by (try exact Hm; lia).
  destruct (fuel - List.length m)%nat as [|f] eqn:Ef; [lia|].
  exists f. split; [destruct ds; [contradiction|simpl in *; lia]|].
  destruct ds as [|d ds']; [contradiction|].
  simpl reNum_all. rewrite (app_comm_cons ds' post d).
  rewrite reNum_at_digits by (try discriminate; assumption). reflexivity.
Qed.

Lemma numfree_head m r :
  chars m <> [] -> forallb (fun x => negb (isNumChar x)) (chars m) = true ->
  match chars m ++ r with [] => true | x :: _ => negb (isNumChar x) end = true.
Proof.
  destruct (chars m) as [|x l]; intros Hne H; [contradiction|].
  simpl in *. apply andb_prop in H. apply H.
Qed.

Lemma digits_plain ds : forallb isDigit ds = true -> forallb (fun x => negb (isSpace x)) ds = true.
Proof.
  rewrite !forallb_forall. intros H x Hx. rewrite digit_not_space; [reflexivity|apply H, Hx].
Qed.

Lemma spaces_numfree sp : forallb isSpace sp = true -> forallb (fun x => negb (isNumChar x)) sp = true.
Proof.
  rewrite !forallb_forall. intros H x Hx. specialize (H x Hx).
  unfold isNumChar. destruct (isDigit x) eqn:E.
  - rewrite digit_not_space in H by exact E. discriminate.
  - unfold isSpace in H. destruct (Ascii.eqb_spec x "."%char); [subst; discriminate|reflexivity].
Qed.

End StrFacts.

(* ================================================================== *)
(** * Path decomposition *)

Module PathExtra.

Import GoStr ProcfsV2 JobFacts StrFacts.
Local Open Scope list_scope.

(** X6: for a path made of the elements [es] (none containing ['/']) and a
    directory depth [d] with [0 <= d <= len(es) - 2], [parseFileElements]
    returns the last element as the file name and, as the node name, the
    element [d + 1] places before it with a [filter-] prefix and a [_UUID]
    suffix removed. *)
Theorem parseFileElements_concat (es : list string) (d : Z) :
  Forall (fun e => ~ In "/"%char (chars e)) es -> (0 <= d)%Z -> (d + 2 <= Z.of_nat (List.length es))%Z ->
  parseFileElements (String.concat "/" es) d =
  Ok (last es "",
      TrimSuffix (TrimPrefix (nth (Z.to_nat (Z.of_nat (List.length es) - 2 - d)) es "") "filter-") "_UUID").
Proof.
  intros Hf Hd Hl.
  assert (Hne : es <> []) by (intros ->; simpl in Hl; lia).
  unfold parseFileElements. rewrite (Split_concat "/"%char es Hne Hf).
  assert (E1 : (Z.of_nat (List.length es) <? 1)%Z = false) by (apply Z.ltb_ge; lia).
  rewrite E1.
  replace (Z.to_nat (Z.of_nat (List.length es) - 1)) with (List.length es - 1)%nat by lia.
  rewrite (nth_error_last es "" Hne).
  assert (E2 : (Z.of_nat (List.length es) - 2 - d <? 0)%Z = false) by (apply Z.ltb_ge; lia).
  rewrite E2. rewrite (nth_error_nth' es "") by lia. reflexivity.
Qed.

Lemma parseFileElements_concat_witness :
  parseFileElements (String.concat "/" ["";"proc";"fs";"lustre";"obdfilter";"filter-lustre-OST0000_UUID";"stats"]) 0
  = Ok ("stats", "lustre-OST0000").
Proof.
  rewrite (parseFileElements_concat ["";"proc";"fs";"lustre";"obdfilter";"filter-lustre-OST0000_UUID";"stats"] 0).
  - reflexivity.
  - repeat constructor; simpl; intuition discriminate.
  - lia.
  - simpl. lia.
Defined.

(** X7: when the directory depth leaves no element before the file name
    ([len(es) < d + 2]), [parseFileElements] panics with an index out of
    range instead of returning an error. *)
Theorem parseFileElements_short_panics (es : list string) (d : Z) :
  Forall (fun e => ~ In "/"%char (chars e)) es -> es <> [] -> (Z.of_nat (List.length es) < d + 2)%Z ->
  parseFileElements (String.concat "/" es) d = Panic "index out of range".
Proof.
  intros Hf Hne Hl.
  unfold parseFileElements. rewrite (Split_concat "/"%char es Hne Hf).
  assert (Hpos : (0 < List.length es)%nat) by (destruct es; [contradiction|simpl; lia]).
  assert (E1 : (Z.of_nat (List.length es) <? 1)%Z = false) by (apply Z.ltb_ge; lia).
  rewrite E1.
  replace (Z.to_nat (Z.of_nat (List.length es) - 1)) with (List.length es - 1)%nat by lia.
  rewrite (nth_error_last es "" Hne).
  assert (E2 : (Z.of_nat (List.length es) - 2 - d <? 0)%Z = true) by (apply Z.ltb_lt; lia).
  rewrite E2. reflexivity.
Qed.

Lemma parseFileElements_short_panics_witness :
  parseFileElements (String.concat "/" ["stats"]) 0 = Panic "index out of range".
Proof.
  apply parseFileElements_short_panics.
  - repeat constructor; simpl; intuition discriminate.
  - discriminate.
  - simpl. lia.
Defined.

End PathExtra.

(* ================================================================== *)
(** * Parsing one job block *)

Module JobExtra.

Import GoStr ProcfsV2 JobFacts StrFacts.
Local Open Scope list_scope.

(** Every case of the counter switch is a plain word: no white space, no
    colon, no number character, and neither [read_bytes] nor
    [write_bytes]. *)
Lemma switchSlots_keys k j :
  lookup k switchSlots = Some j ->
  chars k <> [] /\
  forallb (fun x => negb (isSpace x) && negb (Ascii.eqb x ":"%char)) (chars k) = true /\
  forallb (fun x => negb (isNumChar x)) (chars k) = true /\
  String.eqb k "read_bytes" = false /\ String.eqb k "write_bytes" = false.
Proof.
  intros H. unfold lookup, switchSlots in H.
  repeat match type of H with
         | context [String.eqb k ?s] =>
             destruct (String.eqb_spec k s) as [->|_];
             [vm_compute; repeat split; intros Hx; discriminate Hx|]
         end.
  discriminate.
Qed.





Lemma parsingInt64_chars line pre ds post :
  chars line = pre ++ chars ds ++ chars post ->
  forallb (fun x => negb (isNumChar x)) pre = true ->
  forallb isDigit (chars ds) = true -> chars ds <> [] ->
  match chars post with [] => true | x :: _ => negb (isNumChar x) end = true ->
  parsingInt64 line = ParseInt ds.
Proof.
  intros Hl Hpre Hds Hne Hpost. unfold parsingInt64, reNumFindAll. rewrite Hl.
  destruct (reNum_all_segment pre (chars ds) (chars post) (S (String.length line)))
    as [f [_ E]]; try assumption.
  - rewrite <- length_chars, Hl. lia.
  - rewrite E. simpl. rewrite str_chars, TrimSpace_plain by (apply digits_plain; exact Hds).
    reflexivity.
Qed.

Lemma ParseInt_nonempty ds v : ParseInt ds = Ok v -> chars ds <> [].
Proof. unfold ParseInt. intros H E. rewrite E in H. discriminate. Qed.

Lemma parsingNums_loop_cnt ns : forall dest cnt,
  (snd (fst (parsingNums_loop ns dest cnt)) <= cnt + List.length ns)%nat.
Proof.
  induction ns as [|n ns IH]; intros dest cnt; simpl; [lia|].
  destruct (ParseInt (TrimSpace n)) as [v|e|e]; simpl; try lia.
  match goal with |- context [if ?b then _ else _] => destruct b end; simpl; [lia|].
  specialize (IH (set_nth dest cnt v) (S cnt)). lia.
Qed.

Lemma bytes_key key :
  key = "read_bytes" \/ key = "write_bytes" ->
  chars key <> [] /\
  forallb (fun x => negb (isSpace x) && negb (Ascii.eqb x ":"%char)) (chars key) = true /\
  forallb (fun x => negb (isNumChar x)) (chars key) = true.
Proof. intros [->| ->]; (split; [discriminate|split; reflexivity]). Qed.



(** X9: a line [<spaces><key>:<text><digits><tail>] whose key is one of
    the counters of the switch ([open], [close], ...), where [<text>] has
    no digit or dot and [<tail>] does not continue the number, stores the
    value of [<digits>] in that counter's slot, or fails the block with
    the key error when the number does not fit in an int64. *)
Theorem parseLine_counter (jid : string) (js : jobState) (sp k : string) (j : nat)
    (mid ds post : string) :
  lookup k switchSlots = Some j ->
  forallb isSpace (chars sp) = true ->
  forallb (fun x => negb (isNumChar x)) (chars mid) = true ->
  chars ds <> [] -> forallb isDigit (chars ds) = true ->
  match chars post with [] => true | x :: _ => negb (isNumChar x) end = true ->
  parseLine jid js (sp ++ k ++ ":" ++ mid ++ ds ++ post) =
  match ParseInt ds with
  | Ok v => Ok (set_vals js (set_nth (vals js) j v))
  | _ => Err (keyError k jid (sp ++ k ++ ":" ++ mid ++ ds ++ post))
  end.
Proof.
  intros Hk Hsp Hmid Hne Hds Hpost.
  destruct (switchSlots_keys k j Hk) as [Hkne [Hk1 [Hk2 [Hr Hw]]]].
  destruct (line_key sp k (mid ++ ds ++ post) Hsp Hkne Hk1) as [n [Hi Ht]].
  assert (Hint : parsingInt64 (sp ++ k ++ ":" ++ mid ++ ds ++ post)%string = ParseInt ds).
  { apply (parsingInt64_chars _ (chars sp ++ chars k ++ ":"%char :: chars mid) ds post);
      try assumption.
    - rewrite !chars_app. simpl. rewrite <- !app_assoc. reflexivity.
    - rewrite !forallb_app. simpl. rewrite spaces_numfree, Hk2, Hmid by exact Hsp. reflexivity. }
  unfold parseLine. rewrite Hi. cbv beta iota zeta. rewrite Ht, Hr, Hw, Hk, Hint.
  destruct (ParseInt ds); reflexivity.
Qed.

Lemma parseLine_counter_witness :
  parseLine "a" jobStateInitVal ("  " ++ "open" ++ ":" ++ " { samples: " ++ "3" ++ ", unit: reqs }") =
  Ok (set_vals jobStateInitVal (set_nth (vals jobStateInitVal) 0 3%Z)).
Proof.
  rewrite (parseLine_counter "a" jobStateInitVal "  " "open" 0 " { samples: " "3" ", unit: reqs }");
    try reflexivity. discriminate.
Defined.

(** X10: a [read_bytes] (or [write_bytes]) line whose first four numbers
    are the digit runs [d1 .. d4], separated by non-empty text without
    digits or dots, stores exactly those four values in the job's
    [readbytes] (or [writebytes]) array. *)
Theorem parseLine_bytes (jid : string) (js : jobState) (sp m1 d1 m2 d2 m3 d3 m4 d4 post : string)
    (v1 v2 v3 v4 : Z) :
  forallb isSpace (chars sp) = true ->
  forallb (fun x => negb (isNumChar x)) (chars m1) = true ->
  chars m2 <> [] -> forallb (fun x => negb (isNumChar x)) (chars m2) = true ->
  chars m3 <> [] -> forallb (fun x => negb (isNumChar x)) (chars m3) = true ->
  chars m4 <> [] -> forallb (fun x => negb (isNumChar x)) (chars m4) = true ->
  forallb isDigit (chars d1) = true -> forallb isDigit (chars d2) = true ->
  forallb isDigit (chars d3) = true -> forallb isDigit (chars d4) = true ->
  ParseInt d1 = Ok v1 -> ParseInt d2 = Ok v2 -> ParseInt d3 = Ok v3 -> ParseInt d4 = Ok v4 ->
  match chars post with [] => true | x :: _ => negb (isNumChar x) end = true ->
  List.length (readbytes js) = 4%nat -> List.length (writebytes js) = 4%nat ->
  parseLine jid js (sp ++ "read_bytes" ++ ":" ++ m1 ++ d1 ++ m2 ++ d2 ++ m3 ++ d3 ++ m4 ++ d4 ++ post)
    = Ok (set_readbytes js [v1; v2; v3; v4]) /\
  parseLine jid js (sp ++ "write_bytes" ++ ":" ++ m1 ++ d1 ++ m2 ++ d2 ++ m3 ++ d3 ++ m4 ++ d4 ++ post)
    = Ok (set_writebytes js [v1; v2; v3; v4]).
Proof.
  intros Hsp Hm1 Hn2 Hm2 Hn3 Hm3 Hn4 Hm4 Hd1 Hd2 Hd3 Hd4 P1 P2 P3 P4 Hpost Hrl Hwl.
  pose proof (ParseInt_nonempty _ _ P1) as Hz1. pose proof (ParseInt_nonempty _ _ P2) as Hz2.
  pose proof (ParseInt_nonempty _ _ P3) as Hz3. pose proof (ParseInt_nonempty _ _ P4) as Hz4.
  set (rest := (m1 ++ d1 ++ m2 ++ d2 ++ m3 ++ d3 ++ m4 ++ d4 ++ post)%string).
  assert (Hnums : forall key, key = "read_bytes" \/ key = "write_bytes" ->
            exists tl, reNumFindAll (sp ++ key ++ ":" ++ rest)%string = d1 :: d2 :: d3 :: d4 :: tl).
  { intros key Hkey. destruct (bytes_key key Hkey) as [_ [_ Hk2]].
    unfold reNumFindAll. subst rest. rewrite !chars_app.
    change (chars ":") with [":"%char]. simpl ([_] ++ _).
    set (pre := chars sp ++ chars key ++ ":"%char :: chars m1).
    replace (chars sp ++ chars key ++ ":"%char :: chars m1 ++ _) with
      (pre ++ chars d1 ++ (chars m2 ++ chars d2 ++ (chars m3 ++ chars d3 ++
        (chars m4 ++ chars d4 ++ chars post))))
      by (subst pre; rewrite <- !app_assoc; reflexivity).
    assert (Hpre : forallb (fun x => negb (isNumChar x)) pre = true).
    { subst pre. rewrite !forallb_app. simpl. rewrite spaces_numfree, Hk2, Hm1 by exact Hsp. reflexivity. }
    rewrite <- !length_chars, !chars_app. change (chars ":") with [":"%char]. simpl ([_] ++ _).
    replace (chars sp ++ chars key ++ ":"%char :: chars m1 ++ _) with
      (pre ++ chars d1 ++ (chars m2 ++ chars d2 ++ (chars m3 ++ chars d3 ++
        (chars m4 ++ chars d4 ++ chars post))))
      by (subst pre; rewrite <- !app_assoc; reflexivity).
    set (R3 := chars m4 ++ chars d4 ++ chars post).
    set (R2 := chars m3 ++ chars d3 ++ R3).
    set (R1 := chars m2 ++ chars d2 ++ R2).
    destruct (reNum_all_segment pre (chars d1) R1 (S (List.length (pre ++ chars d1 ++ R1))))
      as [f1 [Hf1 E1]]; [exact Hpre|exact Hz1|exact Hd1|apply numfree_head; assumption|lia|].
    destruct (reNum_all_segment (chars m2) (chars d2) R2 f1)
      as [f2 [Hf2 E2]]; [exact Hm2|exact Hz2|exact Hd2|apply numfree_head; assumption|exact Hf1|].
    destruct (reNum_all_segment (chars m3) (chars d3) R3 f2)
      as [f3 [Hf3 E3]]; [exact Hm3|exact Hz3|exact Hd3|apply numfree_head; assumption|exact Hf2|].
    destruct (reNum_all_segment (chars m4) (chars d4) (chars post) f3)
      as [f4 [Hf4 E4]]; [exact Hm4|exact Hz4|exact Hd4|exact Hpost|exact Hf3|].
    rewrite E1. subst R1. rewrite E2. subst R2. rewrite E3. subst R3. rewrite E4.
    simpl. rewrite !str_chars. eexists. reflexivity. }
  assert (Hpn : forall key dest, key = "read_bytes" \/ key = "write_bytes" -> List.length dest = 4%nat ->
            parsingNums dest (sp ++ key ++ ":" ++ rest)%string = ([v1; v2; v3; v4], 4%nat, None)).
  { intros key dest Hkey Hdl. destruct (Hnums key Hkey) as [tl Htl].
    unfold parsingNums. rewrite Htl. simpl.
    rewrite (TrimSpace_plain d1) by (apply digits_plain; exact Hd1). rewrite P1. simpl.
    rewrite (TrimSpace_plain d2) by (apply digits_plain; exact Hd2). rewrite P2. simpl.
    rewrite (TrimSpace_plain d3) by (apply digits_plain; exact Hd3). rewrite P3. simpl.
    rewrite (TrimSpace_plain d4) by (apply digits_plain; exact Hd4). rewrite P4. simpl.
    destruct dest as [|a [|b [|c [|e [|]]]]]; simpl in Hdl; try discriminate. reflexivity. }
  split.
  - destruct (bytes_key "read_bytes" (or_introl eq_refl)) as [Hkne [Hk1 _]].
    destruct (line_key sp "read_bytes" rest Hsp Hkne Hk1) as [n [Hi Ht]].
    unfold parseLine. rewrite Hi. cbv beta iota zeta. rewrite Ht.
    rewrite (Hpn "read_bytes" (readbytes js) (or_introl eq_refl) Hrl). reflexivity.
  - destruct (bytes_key "write_bytes" (or_intror eq_refl)) as [Hkne [Hk1 _]].
    destruct (line_key sp "write_bytes" rest Hsp Hkne Hk1) as [n [Hi Ht]].
    unfold parseLine. rewrite Hi. cbv beta iota zeta. rewrite Ht.
    rewrite (Hpn "write_bytes" (writebytes js) (or_intror eq_refl) Hwl). reflexivity.
Qed.

Lemma parseLine_bytes_witness :
  parseLine "a" jobStateInitVal
    ("  " ++ "read_bytes" ++ ":" ++ " { samples: " ++ "2" ++ ", unit: bytes, min: " ++ "4096"
       ++ ", max: " ++ "8192" ++ ", sum: " ++ "12288" ++ " }")
  = Ok (set_readbytes jobStateInitVal [2; 4096; 8192; 12288]%Z).
Proof.
  apply (parseLine_bytes "a" jobStateInitVal "  " " { samples: " "2" ", unit: bytes, min: " "4096"
           ", max: " "8192" ", sum: " "12288" " }"); try reflexivity; discriminate.
Defined.

(** X11: a [read_bytes] or [write_bytes] line holding fewer than four
    numbers fails the whole block with the key error. *)
Theorem parseLine_bytes_short (jid : string) (js : jobState) (sp key rest : string) :
  key = "read_bytes" \/ key = "write_bytes" ->
  forallb isSpace (chars sp) = true ->
  (List.length (reNumFindAll (sp ++ key ++ ":" ++ rest)) < 4)%nat ->
  parseLine jid js (sp ++ key ++ ":" ++ rest) = Err (keyError key jid (sp ++ key ++ ":" ++ rest)).
Proof.
  intros Hkey Hsp Hlen.
  destruct (bytes_key key Hkey) as [Hkne [Hk1 _]].
  destruct (line_key sp key rest Hsp Hkne Hk1) as [n [Hi Ht]].
  unfold parseLine. rewrite Hi. cbv beta iota zeta. rewrite Ht.
  assert (Hc : forall dest, (snd (fst (parsingNums dest (sp ++ key ++ ":" ++ rest)%string)) <=? 3)%nat = true).
  { intros dest. apply Nat.leb_le. unfold parsingNums.
    pose proof (parsingNums_loop_cnt (reNumFindAll (sp ++ key ++ ":" ++ rest)%string) dest 0). lia. }
  destruct Hkey as [-> | ->].
  - simpl (String.eqb "read_bytes" "read_bytes"). cbv iota.
    specialize (Hc (readbytes js)).
    destruct (parsingNums (readbytes js) _) as [[d cnt] e]. simpl in Hc. rewrite Hc. reflexivity.
  - simpl (String.eqb "write_bytes" "read_bytes"). simpl (String.eqb "write_bytes" "write_bytes").
    cbv iota. specialize (Hc (writebytes js)).
    destruct (parsingNums (writebytes js) _) as [[d cnt] e]. simpl in Hc. rewrite Hc. reflexivity.
Qed.

Lemma parseLine_bytes_short_witness :
  parseLine "a" jobStateInitVal ("  " ++ "read_bytes" ++ ":" ++ " { samples: 2, unit: bytes }") =
  Err (keyError "read_bytes" "a" ("  " ++ "read_bytes" ++ ":" ++ " { samples: 2, unit: bytes }")).
Proof.
  apply parseLine_bytes_short; [left; reflexivity|reflexivity|vm_compute; lia].
Defined.

End JobExtra.

(* ================================================================== *)
(** * The job_stats cache and the projections *)

Module CacheExtra.

Import GoStr ProcfsV2 JobViews JobFacts.
Local Open Scope list_scope.

Lemma lookup_cache_insert_other q p v m :
  q <> p -> lookup q (cache_insert p v m) = lookup q m.
Proof.
  intros Hq. induction m as [|[k w] m IH]; simpl.
  - apply String.eqb_neq in Hq. rewrite Hq. reflexivity.
  - destruct (String.eqb_spec k p) as [->|Hk]; simpl.
    + apply String.eqb_neq in Hq. rewrite Hq. reflexivity.
    + rewrite IH. reflexivity.
Qed.

Lemma jobStats_pat h pat idx :
  lookup h jobStatsMultistatParsingStruct = Some (pat, idx) ->
  pat = "read_bytes" \/ pat = "write_bytes".
Proof.
  unfold lookup, jobStatsMultistatParsingStruct. intros H.
  repeat match type of H with
         | context [String.eqb ?a ?b] =>
             destruct (String.eqb a b); [injection H as <- <-; auto|]
         end.
  discriminate.
Qed.

(** X12: [parseJobStatsText] fails only when the path is neither cached
    nor readable, with the open error; otherwise it succeeds, whatever the
    content of the file. *)
Theorem parseJobStatsText_result (path nodeType nodeName : string) (metric : lustreProcMetric)
    (bl : list string) (c : procfsV2Ctx) :
  fst (parseJobStatsText path nodeType nodeName metric bl c) =
  match lookup path (c_filesJobStats c), lookup path (fr_files (c_fr c)) with
  | None, None => Err ("open " ++ path ++ ": no such file or directory")
  | _, _ => Ok tt
  end.
Proof.
  unfold parseJobStatsText, bind at 1, getCache.
  destruct (lookup path (c_filesJobStats c)) as [jss|] eqn:Hc.
  - cbv beta iota zeta. rewrite project_spec.
    destruct (lookup path (fr_files (c_fr c))); reflexivity.
  - unfold bind at 1, readFile. simpl c_fr.
    destruct (lookup path (fr_files (c_fr c))) as [content|] eqn:Hf; [|reflexivity].
    cbv beta iota zeta.
    destruct (List.length (Split content "- ") <=? 1)%nat; [reflexivity|].
    unfold bind at 1. rewrite parseJobs_spec.
    unfold bind at 1, setCache. rewrite project_spec. reflexivity.
Qed.

(** X13: [parseJobStatsText] on one path leaves the cached entries of
    every other path unchanged. *)
Theorem parseJobStatsText_cache_frame (path nodeType nodeName : string) (metric : lustreProcMetric)
    (bl : list string) (c : procfsV2Ctx) (q : string) :
  q <> path ->
  lookup q (c_filesJobStats (snd (parseJobStatsText path nodeType nodeName metric bl c))) =
  lookup q (c_filesJobStats c).
Proof.
  intros Hq. unfold parseJobStatsText, bind at 1, getCache.
  destruct (lookup path (c_filesJobStats c)) as [jss|] eqn:Hc.
  - cbv beta iota zeta. rewrite project_spec. reflexivity.
  - unfold bind at 1, readFile. simpl c_fr.
    destruct (lookup path (fr_files (c_fr c))) as [content|] eqn:Hf; [|reflexivity].
    cbv beta iota zeta.
    destruct (List.length (Split content "- ") <=? 1)%nat; [reflexivity|].
    unfold bind at 1. rewrite parseJobs_spec.
    unfold bind at 1, setCache. rewrite project_spec. simpl.
    apply lookup_cache_insert_other. exact Hq.
Qed.

Lemma parseJobStatsText_cache_frame_witness :
  lookup "other" (c_filesJobStats (snd (parseJobStatsText (ProcFixtures.ost0 "job_stats") "ost" "OST0000"
      ProcFixtures.mJobOps ["component"; "target"; "jobid"]
      (mkCtx (ProcFixtures.ostTree [("job_stats", ProcFixtures.jobs3)]) [] [("other", [])] [] []))))
  = Some [].
Proof.
  rewrite (parseJobStatsText_cache_frame (ProcFixtures.ost0 "job_stats") "ost" "OST0000"
             ProcFixtures.mJobOps ["component"; "target"; "jobid"]
             (mkCtx (ProcFixtures.ostTree [("job_stats", ProcFixtures.jobs3)]) [] [("other", [])] [] [])
             "other").
  - reflexivity.
  - discriminate.
Defined.


(** X15: the read/write projection appends exactly one sample per job,
    in the order of the jobs, labelled with the job id and valued by the
    configured slot of [readbytes] or [writebytes]; for a metric whose
    help text is not in [jobStatsMultistatParsingStruct] it appends
    nothing. *)
Theorem getJobStatsIOMetrics_samples (jss : list jobState) (nodeType nodeName : string)
    (metric : lustreProcMetric) (bl : list string) (c : procfsV2Ctx) :
  getJobStatsIOMetrics jss nodeType nodeName metric bl c =
  (Ok tt, addMetrics c
     match lookup (helpText metric) jobStatsMultistatParsingStruct with
     | None => []
     | Some (pat, idx) =>
         map (fun js => mkMetric (metricFunc metric) bl [nodeType; nodeName; jobid js]
                          (promName metric) (helpText metric)
                          (float64 (nth idx (if String.eqb pat "read_bytes" then readbytes js
                                             else writebytes js) 0%Z))) jss
     end).
Proof.
  rewrite getJobStatsIOMetrics_spec. unfold jobIOSamples.
  destruct (lookup (helpText metric) jobStatsMultistatParsingStruct) as [[pat idx]|] eqn:E;
    [|reflexivity].
  destruct (jobStats_pat _ _ _ E) as [-> | ->]; f_equal; f_equal;
    induction jss as [|js jss IH]; simpl; try reflexivity; rewrite IH; reflexivity.
Qed.

End CacheExtra.

(* ================================================================== *)
(** * stats files, histogram blocks and scalar files *)

Module StatsExtra.

Import GoStr ProcfsV2 JobFacts StrFacts.
Local Open Scope list_scope.

Lemma forM_no_panic {A} (l : list A) (f : A -> M unit) p :
  (forall x, In x l -> forall c, fst (f x c) <> Panic p) ->
  forall c, fst (forM_ l f c) <> Panic p.
Proof.
  induction l as [|x l IH]; intros H c; simpl; [discriminate|].
  unfold bind. pose proof (H x (or_introl eq_refl) c) as Hx.
  destruct (f x c) as [[u|e|q] c'] eqn:E; simpl in *.
  - apply IH. intros y Hy. apply H. right. exact Hy.
  - discriminate.
  - exact Hx.
Qed.

Lemma ParseFloat_no_panic s p : ParseFloat s <> Panic p.
Proof. unfold ParseFloat. destruct_all_matches; discriminate. Qed.

Lemma spaceSplit_aux_nonempty l : forall cur b, spaceSplit_aux l cur b <> [].
Proof.
  induction l as [|a l IH]; intros cur b; simpl; [discriminate|].
  destruct (Ascii.eqb a " "%char); [destruct b; [apply IH|discriminate]|apply IH].
Qed.

Lemma spaceSplit_two x y : forall cur,
  forallb (fun a => negb (Ascii.eqb a " "%char)) x = true ->
  (2 <= List.length (spaceSplit_aux (x ++ " "%char :: y) cur false))%nat.
Proof.
  induction x as [|a x IH]; intros cur Hx; simpl.
  - destruct (spaceSplit_aux y [] true) eqn:E; [exfalso; eapply spaceSplit_aux_nonempty; eauto|].
    simpl. lia.
  - simpl in Hx. apply andb_prop in Hx. destruct Hx as [Ha Hx].
    apply negb_true_iff in Ha. rewrite Ha. apply IH. exact Hx.
Qed.

Lemma regexCaptureString_line lit text :
  regexCaptureString (RLine lit) text = "" \/
  exists up, regexCaptureString (RLine lit) text = str (chars lit ++ up).
Proof.
  unfold regexCaptureString. destruct (lindex (chars lit) (chars text)).
  - right. eexists. reflexivity.
  - left. reflexivity.
Qed.

Lemma operationSlice_plain :
  forallb (fun '(pat, idx) => Nat.eqb idx 1 && forallb (fun a => negb (Ascii.eqb a " "%char)) (chars pat))
    operationSlice = true.
Proof. reflexivity. Qed.

(** X16: the operation counters of a [stats] file never crash the
    collection: every matched operation line has the field the code
    indexes, so [getStatsOperationMetrics] succeeds or returns a parse
    error, whatever the file holds. *)
Theorem getStatsOperationMetrics_no_panic (statsFile nodeType nodeName : string)
    (metric : lustreProcMetric) (bl : list string) (c : procfsV2Ctx) (p : string) :
  fst (getStatsOperationMetrics statsFile nodeType nodeName metric bl c) <> Panic p.
Proof.
  unfold getStatsOperationMetrics. apply forM_no_panic.
  intros [pat idx] Hin c'.
  pose proof operationSlice_plain as Hop. rewrite forallb_forall in Hop.
  specialize (Hop _ Hin). simpl in Hop. apply andb_prop in Hop. destruct Hop as [Hidx Hpat].
  apply Nat.eqb_eq in Hidx. subst idx. cbv beta iota zeta.
  destruct (regexCaptureString_line (pat ++ " ") statsFile) as [E|[up E]]; rewrite E.
  - simpl. discriminate.
  - rewrite <- length_chars, chars_str, chars_app, length_app.
    change (chars " ") with [" "%char].
    assert (Hl : (List.length (chars pat ++ [" "%char]) + List.length up <? 1)%nat = false)
      by (apply Nat.ltb_ge; rewrite length_app; simpl; lia).
    rewrite Hl. unfold reSpaceSplit. rewrite chars_str, <- app_assoc. simpl ([_] ++ up).
    pose proof (spaceSplit_two (chars pat) up [] Hpat) as H2.
    unfold bind at 1, lift, nth_or_panic.
    destruct (nth_error (map str (spaceSplit_aux (chars pat ++ " "%char :: up) [] false)) 1) as [field|] eqn:Ef.
    + unfold bind at 1, lift. pose proof (ParseFloat_no_panic field p) as Hp.
      destruct (ParseFloat field) as [q|e|e]; simpl; [discriminate|discriminate|].
      intros Hq. apply Hp. injection Hq as ->. reflexivity.
    + exfalso. apply nth_error_None in Ef. rewrite length_map in Ef. lia.
Qed.

Lemma getStatsOperationMetrics_no_panic_witness :
  fst (getStatsOperationMetrics (ProcFixtures.lines ["open 5 samples [reqs]"; "close"])
         "ost" "OST0000" ProcFixtures.mGood ["component"; "target"]
         (newCtx ProcFixtures.scalarTree)) <> Panic "index out of range".
Proof. apply getStatsOperationMetrics_no_panic. Defined.



(** X18: a scalar ([single]) file whose trimmed content parses as a
    number gives one sample labelled with the node type and the node name
    of its path, valued by that number; the file is read once and nothing
    else of the context changes. *)
Theorem parseFile_single (nodeType path : string) (d : Z) (metric : lustreProcMetric)
    (bl : list string) (c : procfsV2Ctx) (name node content : string) (v : Q) :
  parseFileElements path d = Ok (name, node) ->
  lookup path (fr_files (c_fr c)) = Some content ->
  ParseFloat (TrimSpace content) = Ok v ->
  parseFile nodeType single path d metric bl c =
  (Ok tt, mkCtx (c_fr c) (c_reads c ++ [path]) (c_filesJobStats c)
            (c_metrics c ++ [mkMetric (metricFunc metric) bl [nodeType; node]
                               (promName metric) (helpText metric) v])
            (c_warns c)).
Proof.
  intros He Hf Hv. unfold parseFile, bind at 1, lift. rewrite He. cbv beta iota zeta.
  rewrite String.eqb_refl. unfold bind at 1, readFile, Clean. rewrite Hf.
  unfold bind, lift. rewrite Hv. reflexivity.
Qed.

Lemma parseFile_single_witness :
  parseFile "ost" single (ProcFixtures.ost0 "good_count") 0 ProcFixtures.mGood ["component"; "target"]
    (newCtx ProcFixtures.scalarTree) =
  (Ok tt, mkCtx ProcFixtures.scalarTree [ProcFixtures.ost0 "good_count"] []
            [mkMetric (metricFunc ProcFixtures.mGood) ["component"; "target"] ["ost"; "OST0000"]
               (promName ProcFixtures.mGood) (helpText ProcFixtures.mGood) (inject_Z 5)] []).
Proof.
  apply (parseFile_single "ost" (ProcFixtures.ost0 "good_count") 0 ProcFixtures.mGood
           ["component"; "target"] (newCtx ProcFixtures.scalarTree) "good_count" "OST0000"
           (ProcFixtures.lines ["5"])); reflexivity.
Defined.

End StatsExtra.
